(** * demo-premium-school: the proxy server and its payload media resolver

    A shallow embedding of the two router variants of the repository
    ([src/app.js] and [src/unnamed/part_000]) and of the function
    [processImageUrlsToBase64] they share, with the properties the
    specification states about them.

    Conventions of the embedding.
    - A JavaScript value obtained from [JSON.parse] is a tree ([json]); it is
      never aliased and never cyclic, so the in-place mutation the source
      performs on it is the functional update of the tree.
    - [undefined] is [None] in [option json].
    - A string is a [string] of the Standard Library holding the UTF-8 text
      of the JavaScript string, a surrogate that stands alone in its
      three-byte form; the code units of the JavaScript string are read off
      that text by [units].
    - The outside world (remote hosts, the file system, the clock, the
      JSON codec of the runtime) is an instance of the class [Host]; what the
      program itself emits (outbound requests, console lines) is recorded in
      the [World] it threads. *)

From Stdlib Require Import List String Ascii ZArith Bool Lia Floats DecimalString.
From Stdlib.Strings Require Import Byte.
Import ListNotations.
Open Scope string_scope.
Open Scope Z_scope.

(** ** JSON values *)

Unset Elimination Schemes.
Inductive json : Type :=
| JNull : json
| JBool : bool -> json
| JNum : float -> json
| JStr : string -> json
| JArr : list json -> json
| JObj : list (string * json) -> json.
Set Elimination Schemes.

(** An object is the list of its own enumerable properties in [for ... in]
    order. The names of the properties of an object are pairwise distinct,
    so that [data[key]], for the key under the loop, is the value the key is
    paired with. *)
Definition fields := list (string * json).

Section JsonInduction.
Variable P : json -> Prop.
Hypothesis Hnull : P JNull.
Hypothesis Hbool : forall b, P (JBool b).
Hypothesis Hnum : forall n, P (JNum n).
Hypothesis Hstr : forall s, P (JStr s).
Hypothesis Harr : forall l, Forall P l -> P (JArr l).
Hypothesis Hobj : forall fs, Forall (fun kv => P (snd kv)) fs -> P (JObj fs).

Fixpoint json_ind (j : json) : P j :=
  match j with
  | JNull => Hnull
  | JBool b => Hbool b
  | JNum n => Hnum n
  | JStr s => Hstr s
  | JArr l =>
      Harr l ((fix all (l : list json) : Forall P l :=
                 match l with
                 | [] => Forall_nil _
                 | x :: r => Forall_cons x (json_ind x) (all r)
                 end) l)
  | JObj fs =>
      Hobj fs ((fix all (fs : fields) : Forall (fun kv => P (snd kv)) fs :=
                  match fs with
                  | [] => Forall_nil _
                  | kv :: r => Forall_cons kv (json_ind (snd kv)) (all r)
                  end) fs)
  end.
End JsonInduction.

(** ** The JavaScript operators the program applies to such values *)

(** [!x] is [negb (truthy x)]: [null], [false], [0], [-0], [NaN] and the
    empty string are falsy, every object and array is truthy. *)
Definition truthy (v : json) : bool :=
  match v with
  | JNull => false
  | JBool b => b
  | JNum n => negb (PrimFloat.eqb n 0%float || PrimFloat.is_nan n)
  | JStr s => negb (s =? "")%string
  | JArr _ => true
  | JObj _ => true
  end.

Definition truthy_opt (v : option json) : bool :=
  match v with
  | None => false
  | Some v => truthy v
  end.

(** [typeof v === 'object'] ([null] included). *)
Definition typeof_object (v : json) : bool :=
  match v with
  | JNull | JArr _ | JObj _ => true
  | _ => false
  end.

Fixpoint assoc (k : string) (fs : fields) : option json :=
  match fs with
  | [] => None
  | (k', v) :: r => if (k =? k')%string then Some v else assoc k r
  end.

(** Writing through [obj[k] = v] on a property the object already has. *)
Fixpoint assoc_set (k : string) (v : json) (fs : fields) : fields :=
  match fs with
  | [] => []
  | (k', v') :: r =>
      if (k =? k')%string then (k', v) :: r else (k', v') :: assoc_set k v r
  end.

(** The outcome of a JavaScript expression that may throw. *)
Inductive outcome (A : Type) : Type :=
| Val : A -> outcome A
| Throw : string -> outcome A.
Arguments Val {A} _.
Arguments Throw {A} _.

(** [v.k] for the property names the routers read ([success], [data],
    [mobile], [password], [image], [fileName], [content], [download_url],
    [message]): a [TypeError] on [null], the own property of an object,
    [undefined] on anything else (no array, string, number or boolean has a
    property of one of these names). *)
Definition getProp (v : json) (k : string) : outcome (option json) :=
  match v with
  | JNull => Throw ("Cannot read properties of null (reading '" ++ k ++ "')")
  | JObj fs => Val (assoc k fs)
  | _ => Val None
  end.

(** ** Strings *)

Definition startsWith (s p : string) : bool := String.prefix p s.

(** The bytes of a UTF-8 text: a byte [10xxxxxx] continues the sequence of
    the lead byte before it; a lead byte [11110xxx] opens a code point from
    U+10000 on, which JavaScript holds as two code units, a surrogate pair;
    every other lead byte opens a code point of one code unit. *)
Definition is_continuation (c : ascii) : bool :=
  (128 <=? nat_of_ascii c)%nat && (nat_of_ascii c <? 192)%nat.

Definition is_lead4 (c : ascii) : bool := (240 <=? nat_of_ascii c)%nat.

Definition continuation_count (c : ascii) : nat :=
  if (nat_of_ascii c <? 192)%nat then 0
  else if (nat_of_ascii c <? 224)%nat then 1
  else if (nat_of_ascii c <? 240)%nat then 2
  else 3.

(** The continuation bytes [s] starts with, [k] of them at most. *)
Fixpoint take_continuation (k : nat) (s : string) : string :=
  match k, s with
  | S k', String c r =>
      if is_continuation c then String c (take_continuation k' r) else EmptyString
  | _, _ => EmptyString
  end.

(** The six bits the [i]-th byte of [s] carries. *)
Definition payload (i : nat) (s : string) : N :=
  match String.get i s with
  | Some c => (N_of_ascii c mod 64)%N
  | None => 0%N
  end.

(** The code point opened by the lead byte [c] of a four-byte sequence
    whose other bytes start [r], less U+10000: twenty bits. *)
Definition supplementary (c : ascii) (r : string) : N :=
  let t := take_continuation 3 r in
  (((N_of_ascii c mod 8) * 262144 + payload 0 t * 4096 + payload 1 t * 64
    + payload 2 t - 65536) mod 1048576)%N.

(** The three-byte form of a code unit from U+0800 on. *)
Definition three_bytes (u : N) : string :=
  String (ascii_of_N (224 + (u / 4096) mod 16))
    (String (ascii_of_N (128 + (u / 64) mod 64))
       (String (ascii_of_N (128 + u mod 64)) EmptyString)).

Definition high_surrogate (c : ascii) (r : string) : string :=
  three_bytes (55296 + supplementary c r / 1024).

Definition low_surrogate (c : ascii) (r : string) : string :=
  three_bytes (56320 + supplementary c r mod 1024).

(** The code units of a string, each as the string it makes alone. *)
Fixpoint units (s : string) : list string :=
  match s with
  | EmptyString => []
  | String c r =>
      if is_continuation c then units r
      else if is_lead4 c then high_surrogate c r :: low_surrogate c r :: units r
      else String c (take_continuation (continuation_count c) r) :: units r
  end.

(** [`${n}`] for an integer number. *)
Definition string_of_Z (z : Z) : string := NilZero.string_of_int (Z.to_int z).

(** ** [Buffer.prototype.toString('base64')] *)

Definition base64_alphabet : string :=
  "ABCDEFGHIJKLMNOPQRSTUVWXYZabcdefghijklmnopqrstuvwxyz0123456789+/".

Definition b64char (n : N) : string :=
  match String.get (N.to_nat n) base64_alphabet with
  | Some c => String c EmptyString
  | None => ""
  end.

Definition b64_sextet (n : N) (i : N) : string :=
  b64char (N.land (N.shiftr n (6 * i)) 63).

Fixpoint base64 (bs : list byte) : string :=
  match bs with
  | [] => ""
  | [a] =>
      let n := N.shiftl (Byte.to_N a) 16 in
      b64_sextet n 3 ++ b64_sextet n 2 ++ "=="
  | [a; b] =>
      let n := N.lor (N.shiftl (Byte.to_N a) 16) (N.shiftl (Byte.to_N b) 8) in
      b64_sextet n 3 ++ b64_sextet n 2 ++ b64_sextet n 1 ++ "="
  | a :: b :: c :: r =>
      let n := N.lor (N.lor (N.shiftl (Byte.to_N a) 16) (N.shiftl (Byte.to_N b) 8))
                 (Byte.to_N c) in
      b64_sextet n 3 ++ b64_sextet n 2 ++ b64_sextet n 1 ++ b64_sextet n 0 ++ base64 r
  end.

(** ** The outside world

    [node-fetch]: a call either rejects (a transport-level failure) or
    resolves to a response; reading the body of a response may reject too. *)

Inductive method : Type := GET | POST | PUT.

Record request : Type := mkRequest {
  req_url : string;
  req_method : method;
  req_headers : list (string * string);
  req_body : option string }.

Record response : Type := mkResponse {
  resp_status : Z;
  resp_content_type : option string;   (* headers.get('content-type') *)
  resp_body : outcome (list byte) }.   (* the body stream read to its end *)

(** [response.ok], as node-fetch computes it from the status. *)
Definition resp_ok (r : response) : bool :=
  (200 <=? resp_status r) && (resp_status r <? 300).

(** What [res.sendFile] reports to its callback. *)
Inductive send_result : Type :=
| Sent : send_result
| SendFailed (err_message : string) (err_status : option Z) (headersSent : bool)
  : send_result.

(** Everything the process does not decide itself: the hosts it talks to,
    the file system, the clock and the built-ins of the runtime. *)
Class Host : Type := {
  Ext : Type;
  net_fetch : request -> Ext -> outcome response * Ext;
  fs_sendFile : string -> Ext -> send_result;
  Date_getTime : Ext -> Z;
  JSON_parse : string -> option json;   (* [None]: a SyntaxError *)
  JSON_stringify : json -> string;
  Number_toString : float -> string;
  Buffer_toString : list byte -> string;      (* the UTF-8 decoder behind [response.text()] *)
  json_reject_message : response -> string }. (* the message [response.json()] rejects with *)

(** [process.env], read once when the module is loaded. *)
Record Config : Type := mkConfig {
  GAS_URL : string;
  GITHUB_API_TOKEN : option string;
  GITHUB_OWNER : option string;
  GITHUB_REPO : option string;
  dirname : string }.

Inductive log_arg : Type :=
| LStr : string -> log_arg
| LJson : json -> log_arg
| LErr : string -> log_arg.   (* an Error object, by its message *)

Inductive log_line : Type :=
| Warn : list log_arg -> log_line
| Error : list log_arg -> log_line.

Record World `{Host} : Type := mkWorld {
  ext : Ext;
  sent : list request;        (* the outbound requests issued so far *)
  console : list log_line }.  (* the lines written to the console so far *)

(** ** Computations: state passing over [World], with exceptions

    A computation is a run in which every awaited promise settles: a fetch
    or a body read resolves ([Val]) or rejects ([Throw]). The source sets no
    timeout on its requests; a promise that never settles leaves the handler
    waiting and has no run here, so that what is proved of a run is proved
    of the runs that end. *)

Definition M `{Host} (A : Type) : Type := World -> outcome A * World.

Definition ret `{Host} {A} (a : A) : M A := fun w => (Val a, w).

Definition throw `{Host} {A} (msg : string) : M A := fun w => (Throw msg, w).

Definition bind `{Host} {A B} (m : M A) (k : A -> M B) : M B :=
  fun w =>
    match m w with
    | (Val a, w') => k a w'
    | (Throw e, w') => (Throw e, w')
    end.

Definition try_catch `{Host} {A} (m : M A) (h : string -> M A) : M A :=
  fun w =>
    match m w with
    | (Val a, w') => (Val a, w')
    | (Throw e, w') => h e w'
    end.

Definition lift `{Host} {A} (o : outcome A) : M A := fun w => (o, w).

Declare Scope js_scope.
Delimit Scope js_scope with js.
Notation "x <- m ;; k" := (bind m (fun x => k))
  (at level 100, m at next level, right associativity) : js_scope.
Notation "m ;;; k" := (bind m (fun _ => k))
  (at level 100, right associativity) : js_scope.
Open Scope js_scope.

Section Program.
Context `{Host}.

Definition fetch (r : request) : M response :=
  fun w =>
    let (o, e) := net_fetch r (ext w) in
    (o, mkWorld _ e (sent w ++ [r]) (console w)).

Definition console_warn (args : list log_arg) : M unit :=
  fun w => (Val tt, mkWorld _ (ext w) (sent w) (console w ++ [Warn args])).

Definition console_error (args : list log_arg) : M unit :=
  fun w => (Val tt, mkWorld _ (ext w) (sent w) (console w ++ [Error args])).

(** [response.buffer()] and [response.text()]: the bytes of the body, and
    the text the runtime decodes them into. *)
Definition buffer (r : response) : M (list byte) := lift (resp_body r).

Definition text (r : response) : M string :=
  bs <- buffer r ;; ret (Buffer_toString bs).

(** [a || b] on a string that may be [null]/[undefined]. *)
Definition or_default (a : option string) (b : string) : string :=
  match a with
  | Some s => if (s =? "")%string then b else s
  | None => b
  end.

(** ** [processImageUrlsToBase64] *)

(** [fetch(url)] with no options: a GET without body. *)
Definition image_request (url : string) : request := mkRequest url GET [] None.

Definition is_http (s : string) : bool :=
  startsWith s "http://" || startsWith s "https://".

(** The guard of the conversion: [key === 'PhotoURL' && typeof data[key] ===
    'string' && (data[key].startsWith('http://') || ...)]. *)
Definition is_photo_url (key : string) (v : json) : bool :=
  (key =? "PhotoURL")%string &&
  match v with
  | JStr s => is_http s
  | _ => false
  end.

Definition data_uri (contentType : string) (imageBuffer : list byte) : string :=
  "data:" ++ contentType ++ ";base64," ++ base64 imageBuffer.

(** The [try { ... } catch (error) { ... }] of the loop body; the result is
    the value of [data[key]] when the block is left. *)
Definition convert_photo (url : string) : M json :=
  try_catch
    (response <- fetch (image_request url) ;;
     if resp_ok response then
       imageBuffer <- buffer response ;;
       let contentType := or_default (resp_content_type response) "image/jpeg" in
       ret (JStr (data_uri contentType imageBuffer))
     else
       console_warn [LStr ("Failed to fetch image " ++ url ++ ": Status "
                           ++ string_of_Z (resp_status response))] ;;;
       ret (JStr url))
    (fun message =>
       console_error [LStr ("Error converting image URL " ++ url ++ " to Base64:");
                      LStr message] ;;;
       ret (JStr url)).

(** The body of the [for (const key in data)] loop, over the function [rec]
    called on [data[key]]; it yields the value [data[key]] holds once the
    body is done. *)
Definition field_step (rec : json -> M json) (key : string) (v : json) : M json :=
  v1 <- match v with
        | JStr url => if is_photo_url key v then convert_photo url else ret v
        | _ => ret v
        end ;;
  if typeof_object v1 then rec v1 else ret v1.

(** The function itself. The recursive call of the loop body is on
    [data[key]] as read after the conversion; the conversion only ever fires
    on a string and leaves a string, on which [typeof] is not ['object'], so
    the call is on the value the field had ([processImageUrlsToBase64_field]
    below states the loop body in the source's form). *)
Fixpoint processImageUrlsToBase64 (data : json) : M json :=
  match data with
  | JArr items =>
      items' <- (fix each (l : list json) : M (list json) :=
                   match l with
                   | [] => ret []
                   | item :: r =>
                       item' <- processImageUrlsToBase64 item ;;
                       r' <- each r ;;
                       ret (item' :: r')
                   end) items ;;
      ret (JArr items')
  | JObj fs =>
      fs' <- (fix each (l : fields) : M fields :=
                match l with
                | [] => ret []
                | (key, v) :: r =>
                    v' <- match v with
                          | JStr url =>
                              if is_photo_url key v then convert_photo url else ret v
                          | JBool _ | JNum _ => ret v
                          | JNull | JArr _ | JObj _ => processImageUrlsToBase64 v
                          end ;;
                    r' <- each r ;;
                    ret ((key, v') :: r')
                end) fs ;;
      ret (JObj fs')
  | _ => ret data
  end.

(** The two loops, named. *)
Fixpoint process_items (l : list json) : M (list json) :=
  match l with
  | [] => ret []
  | item :: r =>
      item' <- processImageUrlsToBase64 item ;;
      r' <- process_items r ;;
      ret (item' :: r')
  end.

Fixpoint process_fields (l : fields) : M fields :=
  match l with
  | [] => ret []
  | (key, v) :: r =>
      v' <- field_step processImageUrlsToBase64 key v ;;
      r' <- process_fields r ;;
      ret ((key, v') :: r')
  end.

End Program.

(** * The routers *)

(** ** More of the runtime *)

Definition dquote : string := String (ascii_of_nat 34) EmptyString.

Definition string_of_nat (n : nat) : string := NilZero.string_of_uint (Nat.to_uint n).

(** [a || b] on a status number. *)
Definition status_or (status : Z) (dflt : Z) : Z :=
  if status =? 0 then dflt else status.

(** [a || b] on a value that may be [undefined]. *)
Definition value_or (a : option json) (b : json) : json :=
  match a with
  | Some v => if truthy v then v else b
  | None => b
  end.

(** [!v] on an environment variable. *)
Definition env_set (v : option string) : bool :=
  match v with
  | Some s => negb (s =? "")%string
  | None => false
  end.

(** [`${v}`] on an environment variable. *)
Definition env_text (v : option string) : string :=
  match v with
  | Some s => s
  | None => "undefined"
  end.

(** [const { k } = b]: a [TypeError] when [b] is [undefined] or [null]. *)
Definition destructure (b : option json) (k : string) : outcome (option json) :=
  match b with
  | None =>
      Throw ("Cannot destructure property '" ++ k ++ "' of 'req.body' as it is undefined.")
  | Some JNull =>
      Throw ("Cannot destructure property '" ++ k ++ "' of 'req.body' as it is null.")
  | Some v => getProp v k
  end.

(** An object literal; [JSON.stringify] leaves out a property that is
    [undefined]. *)
Fixpoint literal (l : list (string * option json)) : fields :=
  match l with
  | [] => []
  | (k, Some v) :: r => (k, v) :: literal r
  | (_, None) :: r => literal r
  end.

(** The own enumerable properties a spread [...v] copies. *)
Fixpoint indexed_from (n : nat) (l : list json) : fields :=
  match l with
  | [] => []
  | x :: r => (string_of_nat n, x) :: indexed_from (S n) r
  end.

Definition chars (s : string) : list json := map JStr (units s).

Definition own_props (v : json) : fields :=
  match v with
  | JObj fs => fs
  | JArr l => indexed_from 0 l
  | JStr s => indexed_from 0 (chars s)
  | _ => []
  end.

(** The array index a property name denotes, if it is one: the keys that
    an object enumerates first, in ascending order. *)
Definition is_digit (c : ascii) : bool :=
  (48 <=? nat_of_ascii c)%nat && (nat_of_ascii c <=? 57)%nat.

Fixpoint digits_value (s : string) (acc : N) : option N :=
  match s with
  | EmptyString => Some acc
  | String c r =>
      if is_digit c then digits_value r (10 * acc + N.of_nat (nat_of_ascii c - 48))%N
      else None
  end.

Definition index_of_key (k : string) : option N :=
  match k with
  | EmptyString => None
  | String c r =>
      if ((nat_of_ascii c =? 48)%nat && negb (r =? "")%string) then None
      else
        match digits_value k 0%N with
        | Some n => if (n <? 4294967295)%N then Some n else None
        | None => None
        end
  end.

Definition key_before (k k' : string) : bool :=
  match index_of_key k, index_of_key k' with
  | Some n, Some n' => (n <? n')%N
  | Some _, None => true
  | None, _ => false
  end.

(** Defining the property [k] of an object while it is built. *)
Fixpoint obj_put (k : string) (v : json) (fs : fields) : fields :=
  match fs with
  | [] => [(k, v)]
  | (k', v') :: r =>
      if (k =? k')%string then (k', v) :: r
      else if key_before k k' then (k, v) :: (k', v') :: r
      else (k', v') :: obj_put k v r
  end.

(** [{ ...fs0, ...v }] *)
Definition spread (fs0 : fields) (v : json) : fields :=
  fold_left (fun acc kv => obj_put (fst kv) (snd kv) acc) (own_props v) fs0.

(** [obj.k = v] on the object [obj], whose property [k] exists. *)
Definition set_prop (obj : json) (k : string) (v : json) : json :=
  match obj with
  | JObj fs => JObj (assoc_set k v fs)
  | _ => obj
  end.

(** [s.substring(0, n)]: the first [n] code units of [s]. A continuation
    byte goes with its lead byte; when only the first unit of a surrogate
    pair is within reach, that surrogate is left alone at the end. *)
Fixpoint substring_to (n : nat) (s : string) : string :=
  match s with
  | EmptyString => EmptyString
  | String c r =>
      if is_continuation c then String c (substring_to n r)
      else
        match n with
        | O => EmptyString
        | S n' =>
            if is_lead4 c then
              match n' with
              | O => high_surrogate c r
              | S n'' => String c (substring_to n'' r)
              end
            else String c (substring_to n' r)
        end
  end.

(** The characters the pattern [[^a-zA-Z0-9.\-]] does not match. *)
Definition is_safe_char (c : ascii) : bool :=
  let n := nat_of_ascii c in
  ((97 <=? n) && (n <=? 122) || (65 <=? n) && (n <=? 90) || (48 <=? n) && (n <=? 57)
   || (n =? 46) || (n =? 45))%nat.

(** [s.replace(/[^a-zA-Z0-9.\-]/g, '_')], code unit by code unit (the
    pattern has no [u] flag): a code unit of the class is a one-byte
    character and is kept, any other becomes [_]; a code point of several
    bytes gives one [_], or two when it is a surrogate pair. *)
Fixpoint replace_unsafe (s : string) : string :=
  match s with
  | EmptyString => EmptyString
  | String c r =>
      if is_continuation c then replace_unsafe r
      else if is_lead4 c then String "_" (String "_" (replace_unsafe r))
      else String (if is_safe_char c then c else "_"%char) (replace_unsafe r)
  end.

(** [v.replace(...)] on a value: only a string has the method. *)
Definition call_replace (v : option json) : outcome string :=
  match v with
  | Some (JStr s) => Val (replace_unsafe s)
  | Some JNull => Throw "Cannot read properties of null (reading 'replace')"
  | None => Throw "Cannot read properties of undefined (reading 'replace')"
  | Some _ => Throw "fileName.replace is not a function"
  end.

(** ** Requests and replies *)

(** The route Express matches an inbound request to, once its JSON body
    parser has accepted the request; [PostUploadImage] is
    [POST /upload-image], [Unmatched] anything no variant registers. A
    handler that throws outside its [try] block sends no reply: its
    computation ends in [Throw]. *)
Inductive endpoint : Type :=
| GetIndex | GetTools | GetGenerator
| PostLogin
| PostUploadImage
| PostApi (action : string)
| GetHealth
| Unmatched.

Inductive reply : Type :=
| Json (status : Z) (body : json)        (* res.status(..).json(..) *)
| Text (status : Z) (body : string)      (* res.status(..).send(..) *)
| File (path : string)                   (* res.sendFile, done *)
| FileBroken (path : string).            (* res.sendFile, failed once the headers were out *)

Definition envelope_error (error : string) : json :=
  JObj [("success", JBool false); ("error", JStr error)].

Definition envelope_details (error details : string) : json :=
  JObj [("success", JBool false); ("error", JStr error); ("details", JStr details)].

Section Routes.
Context `{Host}.
Variable cfg : Config.

(** [`${v}`] on a value. An object converts through the [toString] it
    inherits, unless a property of its own hides it: no JSON value can be
    called, and the conversion throws a [TypeError]; an array joins the
    conversions of its elements, [null] counting for nothing. *)
Fixpoint js_toString (v : json) : outcome string :=
  match v with
  | JNull => Val "null"
  | JBool true => Val "true"
  | JBool false => Val "false"
  | JNum n => Val (Number_toString n)
  | JStr s => Val s
  | JArr l =>
      (fix join (l : list json) : outcome string :=
         match l with
         | [] => Val EmptyString
         | x :: r =>
             match match x with JNull => Val EmptyString | _ => js_toString x end with
             | Throw e => Throw e
             | Val sx =>
                 match r with
                 | [] => Val sx
                 | _ =>
                     match join r with
                     | Throw e => Throw e
                     | Val sr => Val (sx ++ "," ++ sr)
                     end
                 end
             end
         end) l
  | JObj fs =>
      match assoc "toString" fs with
      | Some _ => Throw "Cannot convert object to primitive value"
      | None => Val "[object Object]"
      end
  end.

(** [response.json()]: the body text parsed, or a rejection with the
    message the runtime makes for that response. *)
Definition json_of (r : response) : M json :=
  t <- text r ;;
  match JSON_parse t with
  | Some v => ret v
  | None => throw (json_reject_message r)
  end.

Definition new_Date_getTime : M Z := fun w => (Val (Date_getTime (ext w)), w).

(** *** The static routes, [/health] and the fallback *)

Definition send_static (name : string) (log : string)
    (status_of : option Z -> Z) (message : string) : M reply :=
  fun w =>
    let p := dirname cfg ++ "/" ++ name in
    match fs_sendFile p (ext w) with
    | Sent => (Val (File p), w)
    | SendFailed err_message err_status headersSent =>
        (console_error [LStr log; LErr err_message] ;;;
         if negb headersSent then ret (Text (status_of err_status) message)
         else ret (FileBroken p)) w
    end.

Definition err_status_or (dflt : Z) (s : option Z) : Z :=
  match s with
  | Some n => status_or n dflt
  | None => dflt
  end.

Definition get_index : M reply :=
  send_static "index.html" "Error sending index.html:"
    (fun _ => 500) "Error loading application shell.".

Definition get_tools : M reply :=
  send_static "tools.json" "Error sending tools.json:"
    (err_status_or 500) "Error loading tools configuration.".

Definition get_generator : M reply :=
  send_static "generator.json" "Error sending generator.json:"
    (err_status_or 500) "Error loading generator configuration.".

Definition get_health : M reply := ret (Text 200 "OK").

Definition not_found : M reply := ret (Text 404 "Resource not found on proxy.").

(** *** [POST /login] *)

Definition gas_request (body : json) : request :=
  mkRequest (GAS_URL cfg) POST [("Content-Type", "application/json")]
    (Some (JSON_stringify body)).

Definition post_login (body : option json) : M reply :=
  mobile <- lift (destructure body "mobile") ;;
  password <- lift (destructure body "password") ;;
  if negb (truthy_opt mobile) || negb (truthy_opt password) then
    ret (Json 400 (envelope_error "Mobile and password required"))
  else
    try_catch
      (gasResponse <- fetch (gas_request
                        (JObj (literal [("action", Some (JStr "login"));
                                        ("mobile", mobile);
                                        ("password", password)]))) ;;
       responseBodyText <- text gasResponse ;;
       match JSON_parse responseBodyText with
       | None =>
           console_error [LStr "Failed to parse GAS response for login:";
                          LStr (substring_to 500 responseBodyText)] ;;;
           ret (Json 500 (envelope_error
                  ("GAS returned non-JSON response. Status: "
                   ++ string_of_Z (resp_status gasResponse))))
       | Some result =>
           if negb (resp_ok gasResponse) then
             console_error [LStr ("GAS login request failed with HTTP Status: "
                                  ++ string_of_Z (resp_status gasResponse));
                            LJson result] ;;;
             ret (Json (status_or (resp_status gasResponse) 502)
                    (value_or (Some result)
                       (envelope_error ("Upstream GAS error: "
                                        ++ string_of_Z (resp_status gasResponse)))))
           else
             ret (Json 200 result)
       end)
      (fun message =>
         console_error [LStr "Login proxy error:"; LErr message] ;;;
         ret (Json 500 (envelope_details "Proxy server error during login." message))).

(** *** [POST /api/:action] *)

(** [req.body || {}] *)
Definition payload_of (body : option json) : json := value_or body (JObj []).

(** [{ action, ...payload }] *)
Definition api_request (action : string) (body : option json) : request :=
  gas_request (JObj (spread [("action", JStr action)] (payload_of body))).

(** [if (gasResponse.ok && result.success && result.data) { ... }], the one
    statement the two files differ in: the condition is evaluated in both,
    the block is empty in [src/app.js] and calls the resolver on
    [result.data] in [src/unnamed/part_000]. It yields [result] as the
    statement leaves it. *)
Definition media_step_app_js (gasResponse : response) (result : json) : M json :=
  if resp_ok gasResponse then
    success <- lift (getProp result "success") ;;
    if truthy_opt success then
      data <- lift (getProp result "data") ;;
      if truthy_opt data then ret result else ret result
    else ret result
  else ret result.

Definition media_step_part_000 (gasResponse : response) (result : json) : M json :=
  if resp_ok gasResponse then
    success <- lift (getProp result "success") ;;
    if truthy_opt success then
      data <- lift (getProp result "data") ;;
      match data with
      | Some d =>
          if truthy d then
            d' <- processImageUrlsToBase64 d ;;
            ret (set_prop result "data" d')
          else ret result
      | None => ret result
      end
    else ret result
  else ret result.

Definition post_api (media_step : response -> json -> M json)
    (action : string) (body : option json) : M reply :=
  if (action =? "")%string then
    ret (Json 400 (envelope_error "Action parameter is required"))
  else
    try_catch
      (gasResponse <- fetch (api_request action body) ;;
       responseBodyText <- text gasResponse ;;
       match JSON_parse responseBodyText with
       | None =>
           console_error [LStr ("Failed to parse GAS response for action "
                                ++ dquote ++ action ++ dquote ++ ":");
                          LStr (substring_to 500 responseBodyText)] ;;;
           ret (Json 500 (envelope_error
                  ("GAS returned non-JSON response for action " ++ action
                   ++ ". Status: " ++ string_of_Z (resp_status gasResponse))))
       | Some result =>
           if negb (resp_ok gasResponse) then
             console_error [LStr ("GAS API request failed for action "
                                  ++ dquote ++ action ++ dquote
                                  ++ " with HTTP Status: "
                                  ++ string_of_Z (resp_status gasResponse));
                            LJson result] ;;;
             ret (Json (status_or (resp_status gasResponse) 502)
                    (value_or (Some result)
                       (envelope_error ("Upstream GAS error for " ++ action ++ ": "
                                        ++ string_of_Z (resp_status gasResponse)))))
           else
             result' <- media_step gasResponse result ;;
             ret (Json 200 result')
       end)
      (fun message =>
         console_error [LStr ("API proxy error for action "
                              ++ dquote ++ action ++ dquote ++ ":");
                        LErr message] ;;;
         ret (Json 500 (envelope_details
                ("Proxy server error during action: " ++ action ++ ".") message))).

(** *** [POST /upload-image] ([src/app.js] only) *)

Definition sanitizedFileName (now : Z) (replaced : string) : string :=
  string_of_Z now ++ "-" ++ replaced.

Definition filePath (sanitized : string) : string := "images/" ++ sanitized.

Definition GITHUB_API_URL (path : string) : string :=
  "https://api.github.com/repos/" ++ env_text (GITHUB_OWNER cfg) ++ "/"
  ++ env_text (GITHUB_REPO cfg) ++ "/contents/" ++ path.

Definition upload_request (sanitized : string) (image : option json) : request :=
  mkRequest (GITHUB_API_URL (filePath sanitized)) PUT
    [("Authorization", "token " ++ env_text (GITHUB_API_TOKEN cfg));
     ("Content-Type", "application/json");
     ("Accept", "application/vnd.github.v3+json")]
    (Some (JSON_stringify
             (JObj (literal [("message", Some (JStr ("Upload image: " ++ sanitized)));
                             ("content", image)])))).

(** [result.content?.download_url] *)
Definition content_download_url (result : json) : outcome (option json) :=
  match getProp result "content" with
  | Throw e => Throw e
  | Val None => Val None
  | Val (Some JNull) => Val None
  | Val (Some content) => getProp content "download_url"
  end.

Definition post_upload_image (body : option json) : M reply :=
  if negb (env_set (GITHUB_API_TOKEN cfg)) || negb (env_set (GITHUB_OWNER cfg))
     || negb (env_set (GITHUB_REPO cfg)) then
    ret (Json 500 (envelope_error "GitHub integration is not configured on the server."))
  else
    image <- lift (destructure body "image") ;;
    fileName <- lift (destructure body "fileName") ;;
    if negb (truthy_opt image) || negb (truthy_opt fileName) then
      ret (Json 400 (envelope_error "Image data and file name are required."))
    else
      now <- new_Date_getTime ;;
      replaced <- lift (call_replace fileName) ;;
      let sanitized := sanitizedFileName now replaced in
      try_catch
        (githubResponse <- fetch (upload_request sanitized image) ;;
         result <- json_of githubResponse ;;
         download_url <- (if resp_ok githubResponse
                          then lift (content_download_url result)
                          else ret None) ;;
         if resp_ok githubResponse && truthy_opt download_url then
           ret (Json 200 (JObj (literal [("success", Some (JBool true));
                                         ("url", download_url)])))
         else
           message <- lift (getProp result "message") ;;
           console_error [LStr "GitHub API Error:";
                          LJson (value_or message (JStr "Unknown error"))] ;;;
           shown <- lift (js_toString (value_or message (JStr "Failed to upload file."))) ;;
           ret (Json (status_or (resp_status githubResponse) 502)
                  (envelope_error ("GitHub API Error: " ++ shown))))
        (fun message =>
           console_error [LStr "Proxy error during image upload:"; LErr message] ;;;
           ret (Json 500 (envelope_details "Server error during image upload." message))).

(** *** The two variants *)

Definition app_js (e : endpoint) (body : option json) : M reply :=
  match e with
  | GetIndex => get_index
  | GetTools => get_tools
  | GetGenerator => get_generator
  | PostLogin => post_login body
  | PostUploadImage => post_upload_image body
  | PostApi action => post_api media_step_app_js action body
  | GetHealth => get_health
  | Unmatched => not_found
  end.

Definition part_000 (e : endpoint) (body : option json) : M reply :=
  match e with
  | GetIndex => get_index
  | GetTools => get_tools
  | GetGenerator => get_generator
  | PostLogin => post_login body
  | PostApi action => post_api media_step_part_000 action body
  | GetHealth => get_health
  | PostUploadImage | Unmatched => not_found
  end.

End Routes.

(** ** What the specification speaks of *)

(** A position in a payload. *)
Inductive step : Type :=
| Idx : nat -> step
| Key : string -> step.

Definition path := list step.

Fixpoint lookup_path (p : path) (j : json) : option json :=
  match p with
  | [] => Some j
  | Idx n :: p' =>
      match j with
      | JArr l =>
          match nth_error l n with
          | Some x => lookup_path p' x
          | None => None
          end
      | _ => None
      end
  | Key k :: p' =>
      match j with
      | JObj fs =>
          match assoc k fs with
          | Some x => lookup_path p' x
          | None => None
          end
      | _ => None
      end
  end.

(** Some object of the payload, at any depth, has a property [PhotoURL]. *)
Fixpoint has_photo_key (j : json) : bool :=
  match j with
  | JArr l => existsb has_photo_key l
  | JObj fs =>
      (fix any (l : fields) : bool :=
         match l with
         | [] => false
         | (k, v) :: r => (k =? "PhotoURL")%string || has_photo_key v || any r
         end) fs
  | _ => false
  end.

(** Some property [PhotoURL] of the payload, at any depth, holds a string
    that starts with [http://] or [https://]. *)
Fixpoint has_http_photo (j : json) : bool :=
  match j with
  | JArr l => existsb has_http_photo l
  | JObj fs =>
      (fix any (l : fields) : bool :=
         match l with
         | [] => false
         | (k, v) :: r => is_photo_url k v || has_http_photo v || any r
         end) fs
  | _ => false
  end.

Fixpoint any_photo_key (l : fields) : bool :=
  match l with
  | [] => false
  | (k, v) :: r => (k =? "PhotoURL")%string || has_photo_key v || any_photo_key r
  end.

Fixpoint any_http_photo (l : fields) : bool :=
  match l with
  | [] => false
  | (k, v) :: r => is_photo_url k v || has_http_photo v || any_http_photo r
  end.

(** [only_photos_differ p p']: [p'] has the shape of [p] (the same arrays
    with the same lengths, the same objects with the same keys in the same
    order) and the same values everywhere, except that a property [PhotoURL]
    that held an [http(s)://] string may hold another string. *)
Unset Elimination Schemes.
Inductive only_photos_differ : json -> json -> Prop :=
| opd_same : forall j, only_photos_differ j j
| opd_arr : forall l l',
    Forall2 only_photos_differ l l' ->
    only_photos_differ (JArr l) (JArr l')
| opd_obj : forall fs fs',
    Forall2 (fun kv kv' =>
               fst kv = fst kv' /\
               (only_photos_differ (snd kv) (snd kv') \/
                (is_photo_url (fst kv) (snd kv) = true /\ exists s, snd kv' = JStr s)))
            fs fs' ->
    only_photos_differ (JObj fs) (JObj fs').
Set Elimination Schemes.

(** What [convert_photo] leaves in the field, from the answer of the image
    host. *)
Definition converted (url : string) (o : outcome response) : string :=
  match o with
  | Val r =>
      if resp_ok r then
        match resp_body r with
        | Val bs => data_uri (or_default (resp_content_type r) "image/jpeg") bs
        | Throw _ => url
        end
      else url
  | Throw _ => url
  end.




(** The image host answers a request the same way whenever it is asked. *)
Definition fetch_is_stable `{Host} : Prop :=
  forall r e e', fst (net_fetch r e) = fst (net_fetch r e').

(** Whenever [success] is [false] in the envelope, [error] is present. *)
Definition success_false_has_error (b : json) : bool :=
  match b with
  | JObj fs =>
      match assoc "success" fs with
      | Some (JBool false) =>
          match assoc "error" fs with
          | Some _ => true
          | None => false
          end
      | _ => true
      end
  | _ => true
  end.

(** [b] is the JSON body the upstream sent in answer to a request of this
    handler, as it came or with its media resolved. *)
Definition from_upstream `{Host} (cfg : Config) (w : World) (b : json) : Prop :=
  exists req resp e' bytes result,
    req_url req = GAS_URL cfg /\
    net_fetch req (ext w) = (Val resp, e') /\
    resp_body resp = Val bytes /\
    JSON_parse (Buffer_toString bytes) = Some result /\
    only_photos_differ result b.

(** The media-resolution step, on a reply: the resolver over the [data] of
    a 200 reply of [/api/:action] whose [success] and [data] are truthy. *)
Definition resolve_media `{Host} (e : endpoint) (r : reply) : M reply :=
  match e, r with
  | PostApi _, Json status result =>
      if status =? 200 then
        match getProp result "success" with
        | Val success =>
            if truthy_opt success then
              match getProp result "data" with
              | Val (Some d) =>
                  if truthy d then
                    d' <- processImageUrlsToBase64 d ;;
                    ret (Json 200 (set_prop result "data" d'))
                  else ret r
              | _ => ret r
              end
            else ret r
        | Throw _ => ret r
        end
      else ret r
  | _, _ => ret r
  end.

(** The two variants give the same reply but for that step, on every route. *)
Definition variants_differ_in_media_only `{Host} (cfg : Config) : Prop :=
  forall (e : endpoint) (body : option json) (w : World),
    part_000 cfg e body w = (r <- app_js cfg e body ;; resolve_media e r) w.

(** Every JSON reply of the two variants pairs [success: false] with an
    [error]. *)
Definition every_failure_has_error `{Host} (cfg : Config) : Prop :=
  forall (e : endpoint) (body : option json) (w w' : World) (status : Z) (b : json),
    app_js cfg e body w = (Val (Json status b), w') \/
    part_000 cfg e body w = (Val (Json status b), w') ->
    success_false_has_error b = true.

Definition safe_chars : string :=
  "abcdefghijklmnopqrstuvwxyzABCDEFGHIJKLMNOPQRSTUVWXYZ0123456789.-".

(** A code unit is of the class [[a-zA-Z0-9.-]] when it is one of its
    characters, alone; what the replacement makes of a code unit. *)
Definition unit_is_safe (u : string) : bool :=
  match u with
  | String c EmptyString => is_safe_char c
  | _ => false
  end.

Definition replace_unit (u : string) : string := if unit_is_safe u then u else "_".

(** What the replacement makes of a code unit [u]: [u'] is [u] when [u]
    is a character of [[A-Za-z0-9.-]], and [_] when it is anything else. *)
Definition replaced (u u' : string) : Prop :=
  (exists c, u = String c EmptyString /\
             In c (list_ascii_of_string safe_chars) /\ u' = u) \/
  ((forall c, u = String c EmptyString -> ~ In c (list_ascii_of_string safe_chars)) /\
   u' = "_").

(** The [http(s)://] strings held by [PhotoURL] properties of the payload,
    in the order the traversal meets them. *)
Fixpoint photo_urls (j : json) : list string :=
  match j with
  | JArr l => flat_map photo_urls l
  | JObj fs =>
      (fix each (l : fields) : list string :=
         match l with
         | [] => []
         | (k, v) :: r =>
             (match v with
              | JStr url => if is_photo_url k v then [url] else []
              | _ => photo_urls v
              end ++ each r)%list
         end) fs
  | _ => []
  end.

Fixpoint field_photo_urls (l : fields) : list string :=
  match l with
  | [] => []
  | (k, v) :: r =>
      (match v with
       | JStr url => if is_photo_url k v then [url] else []
       | _ => photo_urls v
       end ++ field_photo_urls r)%list
  end.

(** From [w] to [w'] the requests issued are the GETs of [urls], in that
    order, and at most one console line per URL was written. *)
Definition fetched `{Host} (w w' : World) (urls : list string) : Prop :=
  sent w' = (sent w ++ map image_request urls)%list /\
  exists lines,
    console w' = (console w ++ lines)%list /\
    (List.length lines <= List.length urls)%nat.

(** ** A host to run the model on *)

Definition demo_gas_url : string := "https://gas.test/exec".

Definition demo_fetch (r : request) (e : nat) : outcome response * nat :=
  let u := req_url r in
  (if (u =? "https://valid.img/x.png")%string then
     Val (mkResponse 200 (Some "image/png") (Val (list_byte_of_string "Man")))
   else if (u =? "http://img.test/untyped")%string then
     Val (mkResponse 200 None (Val (list_byte_of_string "Ma")))
   else if (u =? "http://img.test/blank-type")%string then
     Val (mkResponse 200 (Some "") (Val (list_byte_of_string "Man")))
   else if (u =? "http://img.test/missing")%string then
     Val (mkResponse 404 (Some "text/html") (Val (list_byte_of_string "gone")))
   else if (u =? "http://img.test/down")%string then
     Throw "connect ECONNREFUSED"
   else if (u =? demo_gas_url)%string then
     match req_body r with
     | Some "broken" => Val (mkResponse 503 (Some "text/plain") (Val (list_byte_of_string "not json")))
     | Some "bare" => Val (mkResponse 500 None (Val (list_byte_of_string "bare failure")))
     | Some "photo" => Val (mkResponse 200 None (Val (list_byte_of_string "photo result")))
     | Some "zero" => Val (mkResponse 200 None (Val (list_byte_of_string "zero result")))
     | Some "echo" => Val (mkResponse 200 None (Val (list_byte_of_string "echo result")))
     | _ => Throw "socket hang up"
     end
   else Throw "getaddrinfo ENOTFOUND", S e).

(** The few texts the demo upstream sends, parsed. *)
Definition demo_parse (s : string) : option json :=
  if (s =? "bare failure")%string then
    Some (JObj [("success", JBool false)])
  else if (s =? "photo result")%string then
    Some (JObj [("success", JBool true);
                ("data", JArr [JObj [("Name", JStr "A");
                                     ("PhotoURL", JStr "http://img.test/missing")]])])
  else if (s =? "zero result")%string then
    Some (JObj [("success", JBool true); ("data", JNum 0%float)])
  else if (s =? "echo result")%string then
    Some (JObj [("success", JBool true); ("data", JObj [("foo", JStr "bar")])])
  else None.

(** The demo upstream is addressed by the action alone. *)
Definition demo_stringify (j : json) : string :=
  match j with
  | JObj (("action", JStr a) :: _) => a
  | _ => ""
  end.

#[local] Instance demo_host : Host := {|
  Ext := nat;
  net_fetch := demo_fetch;
  fs_sendFile := fun _ _ => Sent;
  Date_getTime := fun _ => 1700000000000;
  JSON_parse := demo_parse;
  JSON_stringify := demo_stringify;
  Number_toString := fun _ => "0";
  Buffer_toString := string_of_list_byte;
  json_reject_message := fun _ => "invalid json response body" |}.

Definition demo_world : World := mkWorld demo_host 0%nat [] [].

(** A deployment without the asset-host credentials, and one with them. *)
Definition demo_cfg : Config := mkConfig demo_gas_url None None None "/srv/app".

Definition demo_cfg_github : Config :=
  mkConfig demo_gas_url (Some "t0k3n") (Some "edu") (Some "assets") "/srv/app".

Definition demo_student (url : string) : json :=
  JObj [("Name", JStr "A"); ("PhotoURL", JStr url)].

Definition demo_upload : json :=
  JObj [("image", JStr "aGk="); ("fileName", JStr "my photo(1).png")].

(** A second host: an upstream that knows two accounts and answers [null]
    to the action [nothing], an asset host with one open repository, one
    locked and one whose refusal carries an object for a message, and a file
    system without [tools.json]. *)
Definition office_stringify (j : json) : string :=
  match j with
  | JObj (("action", JStr a) :: ("mobile", JStr m) :: _) => a ++ ":" ++ m
  | JObj (("action", JStr a) :: _) => a
  | _ => ""
  end.

Definition office_fetch (r : request) (e : nat) : outcome response * nat :=
  let u := req_url r in
  let b := match req_body r with Some b => b | None => "" end in
  (if (u =? demo_gas_url)%string then
     if (b =? "login:9000000001")%string then
       Val (mkResponse 200 (Some "application/json")
              (Val (list_byte_of_string "login ok")))
     else if (b =? "login:9000000002")%string then
       Val (mkResponse 200 (Some "text/html")
              (Val (list_byte_of_string "<html>Sign in</html>")))
     else if (b =? "nothing")%string then
       Val (mkResponse 200 (Some "application/json")
              (Val (list_byte_of_string "null")))
     else Throw "socket hang up"
   else if String.prefix "https://api.github.com/repos/edu/assets/" u then
     Val (mkResponse 201 (Some "application/json")
            (Val (list_byte_of_string "created")))
   else if String.prefix "https://api.github.com/repos/edu/locked/" u then
     Val (mkResponse 403 (Some "application/json")
            (Val (list_byte_of_string "forbidden")))
   else if String.prefix "https://api.github.com/repos/edu/odd/" u then
     Val (mkResponse 422 (Some "application/json")
            (Val (list_byte_of_string "odd")))
   else Throw "getaddrinfo ENOTFOUND", S e).

Definition office_parse (s : string) : option json :=
  if (s =? "login ok")%string then
    Some (JObj [("success", JBool true);
                ("data", JObj [("Name", JStr "A");
                               ("PhotoURL", JStr "https://valid.img/x.png")])])
  else if (s =? "null")%string then Some JNull
  else if (s =? "created")%string then
    Some (JObj [("content",
                 JObj [("download_url",
                        JStr "https://raw.githubusercontent.com/edu/assets/main/images/x.png")])])
  else if (s =? "forbidden")%string then
    Some (JObj [("message", JStr "Resource not accessible by personal access token")])
  else if (s =? "odd")%string then
    Some (JObj [("message", JObj [("toString", JNum 1%float)])])
  else None.

Definition office_sendFile (p : string) (e : nat) : send_result :=
  if (p =? "/srv/app/tools.json")%string
  then SendFailed "ENOENT: no such file or directory" (Some 404) false
  else Sent.

Definition office_host : Host := {|
  Ext := nat;
  net_fetch := office_fetch;
  fs_sendFile := office_sendFile;
  Date_getTime := fun _ => 1700000000000;
  JSON_parse := office_parse;
  JSON_stringify := office_stringify;
  Number_toString := fun _ => "0";
  Buffer_toString := string_of_list_byte;
  json_reject_message := fun _ => "invalid json response body" |}.

Definition office_world : @World office_host := @mkWorld office_host 0%nat [] [].

Definition office_cfg_locked : Config :=
  mkConfig demo_gas_url (Some "t0k3n") (Some "edu") (Some "locked") "/srv/app".

Definition office_cfg_odd : Config :=
  mkConfig demo_gas_url (Some "t0k3n") (Some "edu") (Some "odd") "/srv/app".

Definition office_login (mobile : string) : json :=
  JObj [("mobile", JStr mobile); ("password", JStr "secret")].

(** * The definitions, on known values *)

Example base64_Man : base64 (list_byte_of_string "Man") = "TWFu".
Proof. reflexivity. Qed.

Example base64_hello : base64 (list_byte_of_string "hello") = "aGVsbG8=".
Proof. reflexivity. Qed.

Example base64_M : base64 (list_byte_of_string "M") = "TQ==".
Proof. reflexivity. Qed.

Example base64_high_bytes : base64 [xff; xfe; xfd] = "//79".
Proof. reflexivity. Qed.

Example status_text : string_of_Z 503 = "503" /\ string_of_Z 0 = "0".
Proof. split; reflexivity. Qed.

(** Code units: a character of the basic plane is one unit whatever the
    length of its UTF-8 form, a character beyond it is two, the halves of its
    surrogate pair. *)
Example units_of_a_name : units "日本.png" = ["日"; "本"; "."; "p"; "n"; "g"].
Proof. reflexivity. Qed.

Example units_of_a_pair :
  map list_byte_of_string (units "😀") = [[xed; xa0; xbd]; [xed; xb8; x80]].
Proof. reflexivity. Qed.

Example replace_unsafe_plain : replace_unsafe "my photo(1).png" = "my_photo_1_.png".
Proof. reflexivity. Qed.

Example replace_unsafe_wide : replace_unsafe "日本.png" = "__.png".
Proof. reflexivity. Qed.

Example replace_unsafe_pair : replace_unsafe "😀.png" = "__.png".
Proof. reflexivity. Qed.

Example substring_to_wide : substring_to 3 "éa日本.png" = "éa日".
Proof. reflexivity. Qed.

(** [substring] may cut a surrogate pair and keep its first half. *)
Example substring_to_cuts_a_pair :
  list_byte_of_string (substring_to 1 "😀x") = [xed; xa0; xbd] /\
  substring_to 2 "😀x" = "😀" /\
  substring_to 3 "😀x" = "😀x".
Proof. split; [|split]; reflexivity. Qed.

Example js_toString_of_an_array :
  js_toString (JArr [JStr "x"; JNull; JArr [JStr "a"; JStr "b"]; JObj []])
    = Val "x,,a,b,[object Object]".
Proof. reflexivity. Qed.

(** A property [toString] of its own hides [Object.prototype.toString] and is
    not callable. *)
Example js_toString_throws :
  js_toString (JArr [JStr "a"; JObj [("toString", JNull)]])
    = Throw "Cannot convert object to primitive value".
Proof. reflexivity. Qed.

(** The relation sees a change elsewhere. *)
Example other_change_is_seen :
  ~ only_photos_differ (JObj [("Name", JStr "A")]) (JObj [("Name", JStr "B")]).
Proof.
  intros D. inversion D as [ | | fs fs' F]; subst.
  inversion F as [|kv kv' r r' [_ [Dv | [Hp _]]] _]; subst.
  - inversion Dv.
  - discriminate Hp.
Qed.

(** * Properties of the encodings *)

Lemma append_length (a b : string) :
  String.length (a ++ b) = (String.length a + String.length b)%nat.
Proof. induction a as [|c a IH]; cbn; [reflexivity | rewrite IH; reflexivity]. Qed.

Lemma list_ascii_of_append (a b : string) :
  list_ascii_of_string (a ++ b) =
    (list_ascii_of_string a ++ list_ascii_of_string b)%list.
Proof. induction a as [|c a IH]; cbn; [reflexivity | rewrite IH; reflexivity]. Qed.

Lemma b64char_in_alphabet (k : nat) :
  (k < 64)%nat ->
  exists c, b64char (N.of_nat k) = String c EmptyString /\
            In c (list_ascii_of_string base64_alphabet).
Proof.
  intros Hk. unfold b64char. rewrite Nnat.Nat2N.id.
  do 64 (destruct k as [|k];
         [eexists; split; [reflexivity|]; cbn; tauto|]).
  lia.
Qed.

Lemma b64_sextet_in_alphabet (n i : N) :
  exists c, b64_sextet n i = String c EmptyString /\
            In c (list_ascii_of_string base64_alphabet).
Proof.
  unfold b64_sextet.
  assert (Hm : (N.land (N.shiftr n (6 * i)) 63 < 64)%N).
  { change 63%N with (N.ones 6). rewrite N.land_ones. apply N.mod_lt. discriminate. }
  rewrite <- (Nnat.N2Nat.id (N.land _ _)). apply b64char_in_alphabet. lia.
Qed.

Lemma base64_shape_upto (n : nat) :
  forall bs, (List.length bs <= n)%nat ->
    String.length (base64 bs) = (4 * ((List.length bs + 2) / 3))%nat /\
    Forall (fun c => In c (list_ascii_of_string (base64_alphabet ++ "=")))
      (list_ascii_of_string (base64 bs)).
Proof.
  assert (Hin : forall c, In c (list_ascii_of_string base64_alphabet) ->
                          In c (list_ascii_of_string (base64_alphabet ++ "="))).
  { intros c Hc. rewrite list_ascii_of_append. apply in_or_app. left. exact Hc. }
  assert (Heq : In "="%char (list_ascii_of_string (base64_alphabet ++ "="))).
  { rewrite list_ascii_of_append. apply in_or_app. right. left. reflexivity. }
  induction n as [|n IH]; intros bs Hl.
  - destruct bs; [|cbn in Hl; lia]. split; [reflexivity | constructor].
  - destruct bs as [|a [|b [|c r]]].
    + split; [reflexivity | constructor].
    + cbn [base64].
      destruct (b64_sextet_in_alphabet (N.shiftl (Byte.to_N a) 16) 3) as (c3 & -> & H3).
      destruct (b64_sextet_in_alphabet (N.shiftl (Byte.to_N a) 16) 2) as (c2 & -> & H2).
      split; [reflexivity|]. cbn [String.append list_ascii_of_string].
      repeat (apply Forall_cons; [solve [auto]|]). apply Forall_nil.
    + cbn [base64].
      set (m := N.lor _ _).
      destruct (b64_sextet_in_alphabet m 3) as (c3 & -> & H3).
      destruct (b64_sextet_in_alphabet m 2) as (c2 & -> & H2).
      destruct (b64_sextet_in_alphabet m 1) as (c1 & -> & H1).
      split; [reflexivity|]. cbn [String.append list_ascii_of_string].
      repeat (apply Forall_cons; [solve [auto]|]). apply Forall_nil.
    + cbn [base64].
      set (m := N.lor _ _).
      destruct (b64_sextet_in_alphabet m 3) as (c3 & -> & H3).
      destruct (b64_sextet_in_alphabet m 2) as (c2 & -> & H2).
      destruct (b64_sextet_in_alphabet m 1) as (c1 & -> & H1).
      destruct (b64_sextet_in_alphabet m 0) as (c0 & -> & H0).
      destruct (IH r) as [Lr Ar]; [cbn in Hl; lia|].
      split.
      * cbn [String.append String.length List.length]. rewrite Lr.
        replace (S (S (S (List.length r))) + 2)%nat
          with (1 * 3 + (List.length r + 2))%nat by lia.
        rewrite Nat.div_add_l by discriminate. lia.
      * cbn [String.append list_ascii_of_string].
        repeat (apply Forall_cons; [solve [auto]|]). exact Ar.
Qed.

(** X2. The base64 text of [n] bytes has [4 * ceil (n / 3)] characters, all
    of them in the base64 alphabet or the padding [=]. *)
Theorem base64_shape (bs : list byte) :
  String.length (base64 bs) = (4 * ((List.length bs + 2) / 3))%nat /\
  Forall (fun c => In c (list_ascii_of_string (base64_alphabet ++ "=")))
    (list_ascii_of_string (base64 bs)).
Proof. apply (base64_shape_upto (List.length bs)). lia. Qed.

Lemma safe_is_plain (c : ascii) :
  is_safe_char c = true ->
  is_continuation c = false /\ is_lead4 c = false /\ continuation_count c = 0%nat.
Proof.
  destruct c as [[] [] [] [] [] [] [] []]; vm_compute; intros X;
    try discriminate X; repeat split.
Qed.

(** X3. Replacing the unsafe characters of a file name a second time
    changes nothing, and a name made of characters of [[A-Za-z0-9.-]] is
    kept as it is. *)
Theorem replace_unsafe_stable (s : string) :
  replace_unsafe (replace_unsafe s) = replace_unsafe s /\
  (Forall (fun c => is_safe_char c = true) (list_ascii_of_string s) ->
   replace_unsafe s = s).
Proof.
  split.
  - induction s as [|c r IH]; [reflexivity|].
    cbn [replace_unsafe].
    destruct (is_continuation c) eqn:Ec; [exact IH|].
    destruct (is_lead4 c) eqn:El.
    + cbn. rewrite IH. reflexivity.
    + destruct (is_safe_char c) eqn:Es.
      * change (replace_unsafe (String c (replace_unsafe r)))
          with (if is_continuation c then replace_unsafe (replace_unsafe r)
                else if is_lead4 c
                     then String "_" (String "_" (replace_unsafe (replace_unsafe r)))
                     else String (if is_safe_char c then c else "_"%char)
                            (replace_unsafe (replace_unsafe r))).
        rewrite Ec, El, Es, IH. reflexivity.
      * cbn. rewrite IH. reflexivity.
  - induction s as [|c r IH]; [reflexivity|]. cbn [list_ascii_of_string]. intros F.
    inversion F as [|x l Hc Hr]; subst.
    destruct (safe_is_plain c Hc) as (Ec & El & _).
    cbn [replace_unsafe]. rewrite Ec, El, Hc, (IH Hr). reflexivity.
Qed.

Lemma is_safe_char_mem (c : ascii) :
  is_safe_char c = existsb (Ascii.eqb c) (list_ascii_of_string safe_chars).
Proof. destruct c as [[] [] [] [] [] [] [] []]; vm_compute; reflexivity. Qed.

Lemma string_of_uint_digits (d : Decimal.uint) :
  Forall (fun c => is_safe_char c = true)
    (list_ascii_of_string (NilEmpty.string_of_uint d)).
Proof. induction d; cbn; constructor; auto. Qed.

Lemma string_of_Z_safe (z : Z) :
  Forall (fun c => is_safe_char c = true) (list_ascii_of_string (string_of_Z z)).
Proof.
  unfold string_of_Z, NilZero.string_of_int, NilZero.string_of_uint.
  destruct (Z.to_int z) as [d|d]; destruct d; cbn;
    repeat (constructor; [reflexivity|]); try apply string_of_uint_digits;
    constructor.
Qed.

Lemma replace_unsafe_chars (s : string) :
  Forall (fun c => is_safe_char c = true \/ c = "_"%char)
    (list_ascii_of_string (replace_unsafe s)).
Proof.
  induction s as [|c r IH]; cbn [replace_unsafe]; [constructor|].
  destruct (is_continuation c); [exact IH|].
  destruct (is_lead4 c).
  - cbn. constructor; [right; reflexivity|]. constructor; [right; reflexivity|].
    exact IH.
  - cbn. constructor; [|exact IH].
    destruct (is_safe_char c) eqn:E; [left; exact E | right; reflexivity].
Qed.

(** ** Code units *)

Lemma byte_of_N (m : N) : (m < 256)%N -> nat_of_ascii (ascii_of_N m) = N.to_nat m.
Proof. intros Hm. unfold nat_of_ascii. rewrite N_ascii_embedding by exact Hm. reflexivity. Qed.

Lemma continuation_of (k : N) :
  (k < 64)%N -> is_continuation (ascii_of_N (128 + k)) = true.
Proof.
  intros Hk. unfold is_continuation. rewrite byte_of_N by lia.
  apply andb_true_intro. split; [apply Nat.leb_le | apply Nat.ltb_lt]; lia.
Qed.

Lemma lead_of_three (k : N) :
  (k < 16)%N ->
  is_continuation (ascii_of_N (224 + k)) = false /\
  is_lead4 (ascii_of_N (224 + k)) = false /\
  continuation_count (ascii_of_N (224 + k)) = 2%nat.
Proof.
  intros Hk. unfold is_continuation, is_lead4, continuation_count.
  rewrite byte_of_N by lia.
  assert (H1 : (N.to_nat (224 + k) <? 192)%nat = false) by (apply Nat.ltb_ge; lia).
  assert (H2 : (N.to_nat (224 + k) <? 224)%nat = false) by (apply Nat.ltb_ge; lia).
  assert (H3 : (N.to_nat (224 + k) <? 240)%nat = true) by (apply Nat.ltb_lt; lia).
  assert (H4 : (240 <=? N.to_nat (224 + k))%nat = false) by (apply Nat.leb_gt; lia).
  rewrite H1, H2, H3, H4, andb_false_r. repeat split.
Qed.

Lemma units_three_bytes (u : N) : units (three_bytes u) = [three_bytes u].
Proof.
  unfold three_bytes.
  assert (Ha : ((u / 4096) mod 16 < 16)%N) by (apply N.mod_lt; discriminate).
  assert (Hb : ((u / 64) mod 64 < 64)%N) by (apply N.mod_lt; discriminate).
  assert (Hc : (u mod 64 < 64)%N) by (apply N.mod_lt; discriminate).
  destruct (lead_of_three _ Ha) as (E1 & E2 & E3).
  cbn [units]. rewrite E1, E2, E3. cbn [take_continuation units].
  rewrite (continuation_of _ Hb), (continuation_of _ Hc). reflexivity.
Qed.

Lemma three_bytes_opens (u : N) (k : nat) : take_continuation k (three_bytes u) = "".
Proof.
  unfold three_bytes.
  assert (Ha : ((u / 4096) mod 16 < 16)%N) by (apply N.mod_lt; discriminate).
  destruct (lead_of_three _ Ha) as (E1 & _).
  destruct k; cbn [take_continuation]; [reflexivity | rewrite E1; reflexivity].
Qed.

Lemma take_continuation_substring_to (s : string) :
  forall k n, take_continuation k (substring_to n s) = take_continuation k s.
Proof.
  induction s as [|c r IH]; intros k n; [reflexivity|].
  cbn [substring_to]. destruct (is_continuation c) eqn:Ec.
  - destruct k; cbn [take_continuation]; [reflexivity|]. rewrite Ec, IH. reflexivity.
  - assert (Hk : take_continuation k (String c r) = "").
    { destruct k; cbn [take_continuation]; [reflexivity | rewrite Ec; reflexivity]. }
    rewrite Hk. destruct n as [|n]; [destruct k; reflexivity|].
    destruct (is_lead4 c).
    + destruct n as [|n]; [apply three_bytes_opens|].
      destruct k; cbn [take_continuation]; [reflexivity | rewrite Ec; reflexivity].
    + destruct k; cbn [take_continuation]; [reflexivity | rewrite Ec; reflexivity].
Qed.

Lemma units_substring_to (s : string) :
  forall n, units (substring_to n s) = firstn n (units s).
Proof.
  induction s as [|c r IH]; intros n; [destruct n; reflexivity|].
  cbn [substring_to units]. destruct (is_continuation c) eqn:Ec.
  - cbn [units]. rewrite Ec. apply IH.
  - destruct n as [|n]; [reflexivity|].
    destruct (is_lead4 c) eqn:El.
    + destruct n as [|n]; [apply units_three_bytes|].
      cbn [units firstn]. rewrite Ec, El, IH.
      unfold high_surrogate, low_surrogate, supplementary.
      rewrite take_continuation_substring_to. reflexivity.
    + cbn [units firstn]. rewrite Ec, El, IH, take_continuation_substring_to.
      reflexivity.
Qed.

Lemma substring_to_whole (s : string) :
  forall n, (List.length (units s) <= n)%nat -> substring_to n s = s.
Proof.
  induction s as [|c r IH]; intros n Hn; [reflexivity|].
  cbn [substring_to units] in *. destruct (is_continuation c).
  - rewrite (IH n Hn). reflexivity.
  - destruct (is_lead4 c).
    + cbn [List.length] in Hn. destruct n as [|[|n]]; try lia.
      rewrite IH by lia. reflexivity.
    + cbn [List.length] in Hn. destruct n as [|n]; [lia|].
      rewrite IH by lia. reflexivity.
Qed.

Lemma units_replace_unsafe (s : string) :
  units (replace_unsafe s) = map replace_unit (units s).
Proof.
  induction s as [|c r IH]; [reflexivity|].
  cbn [replace_unsafe units]. destruct (is_continuation c) eqn:Ec; [exact IH|].
  destruct (is_lead4 c) eqn:El.
  - cbn. rewrite IH. reflexivity.
  - cbn [map]. rewrite <- IH. destruct (is_safe_char c) eqn:Es.
    + destruct (safe_is_plain c Es) as (_ & _ & E0). rewrite E0.
      cbn [take_continuation units]. rewrite Ec, El, E0.
      cbn [take_continuation]. unfold replace_unit. cbn [unit_is_safe].
      rewrite Es. reflexivity.
    + assert (Eu : replace_unit (String c (take_continuation (continuation_count c) r))
                   = "_").
      { unfold replace_unit. cbn [unit_is_safe].
        destruct (take_continuation (continuation_count c) r); [rewrite Es|];
          reflexivity. }
      rewrite Eu. reflexivity.
Qed.

(** X4. The whole stored name, timestamp prefix included, holds characters
    of [[A-Za-z0-9.-_]] only, whatever the file name and the clock: it has no
    [/], and the path derived from it is the one segment under [images/]. *)
Theorem stored_name_is_one_segment (now : Z) (name : string) :
  let stored := string_of_Z now ++ "-" ++ replace_unsafe name in
  Forall (fun c => In c (list_ascii_of_string (safe_chars ++ "_")))
    (list_ascii_of_string stored) /\
  ~ In "/"%char (list_ascii_of_string stored).
Proof.
  intros stored.
  assert (F : Forall (fun c => is_safe_char c = true \/ c = "_"%char)
                (list_ascii_of_string stored)).
  { unfold stored. rewrite !list_ascii_of_append.
    apply Forall_app. split; [|apply Forall_app; split].
    - eapply Forall_impl; [|apply string_of_Z_safe]. intros c Hc. left. exact Hc.
    - repeat constructor.
    - apply replace_unsafe_chars. }
  split.
  - eapply Forall_impl; [|exact F]. intros c [Hc | ->].
    + rewrite list_ascii_of_append. apply in_or_app. left.
      rewrite is_safe_char_mem, existsb_exists in Hc.
      destruct Hc as (x & Hx & E). apply Ascii.eqb_eq in E. subst x. exact Hx.
    + rewrite list_ascii_of_append. apply in_or_app. right. left. reflexivity.
  - intros Hin. rewrite Forall_forall in F. destruct (F _ Hin) as [E | E];
      discriminate E.
Qed.





(** * Properties of the resolver *)

Section Resolver.
Context `{Host}.

Lemma convert_photo_value (url : string) (w : World) :
  exists w',
    convert_photo url w =
      (Val (JStr (converted url (fst (net_fetch (image_request url) (ext w))))), w').
Proof.
  unfold convert_photo, try_catch, bind, fetch, converted.
  destruct (net_fetch (image_request url) (ext w)) as [[r | e] x]; cbn.
  - destruct (resp_ok r); cbn.
    + unfold buffer, lift. destruct (resp_body r); cbn; eexists; reflexivity.
    + eexists; reflexivity.
  - eexists; reflexivity.
Qed.

Lemma data_uri_not_http (ct : string) (bs : list byte) :
  is_http (data_uri ct bs) = false.
Proof. reflexivity. Qed.

(** The function is equal to its two loops. *)
Lemma process_arr (l : list json) :
  processImageUrlsToBase64 (JArr l) =
    (items' <- process_items l ;; ret (JArr items')).
Proof. reflexivity. Qed.

Lemma process_leaf (j : json) :
  match j with JArr _ | JObj _ => False | _ => True end ->
  processImageUrlsToBase64 j = ret j.
Proof. destruct j; simpl; intros F; try reflexivity; contradiction. Qed.

Lemma field_step_eq (key : string) (v : json) (w : World) :
  field_step processImageUrlsToBase64 key v w =
    match v with
    | JStr url => if is_photo_url key v then convert_photo url w else (Val v, w)
    | _ => processImageUrlsToBase64 v w
    end.
Proof.
  unfold field_step, bind, ret.
  destruct v; try reflexivity.
  destruct (is_photo_url key (JStr s)); [|reflexivity].
  destruct (convert_photo_value s w) as [w' E]. rewrite E. reflexivity.
Qed.

Lemma bind_cong {A B} (m m' : M A) (k : A -> M B) (w : World) :
  m w = m' w -> bind m k w = bind m' k w.
Proof. unfold bind. intros ->. reflexivity. Qed.

Lemma bind_cong_r {A B} (m : M A) (k k' : A -> M B) (w : World) :
  (forall a w', k a w' = k' a w') -> bind m k w = bind m k' w.
Proof.
  unfold bind. intros E. destruct (m w) as [[a|e] w']; [apply E|reflexivity].
Qed.

Lemma process_obj (fs : fields) (w : World) :
  processImageUrlsToBase64 (JObj fs) w =
    (fs' <- process_fields fs ;; ret (JObj fs')) w.
Proof.
  cbn [processImageUrlsToBase64]. apply bind_cong.
  revert w. induction fs as [|[key v] r IH]; intros w; [reflexivity|].
  cbn [process_fields].
  etransitivity.
  - apply bind_cong_r. intros a w'. apply bind_cong. apply IH.
  - apply bind_cong. rewrite field_step_eq.
    destruct v; try reflexivity.
    destruct (is_photo_url key (JStr s)); reflexivity.
Qed.

(** *** Running the two loops *)

Lemma process_items_run (R : json -> json -> Prop) (l : list json) :
  Forall (fun x => forall w, exists x' w',
            processImageUrlsToBase64 x w = (Val x', w') /\ R x x') l ->
  forall w, exists l' w',
    process_items l w = (Val l', w') /\ Forall2 R l l'.
Proof.
  induction 1 as [|x r Hx _ IH]; intros w.
  - exists [], w. split; [reflexivity | constructor].
  - destruct (Hx w) as (x' & w1 & E1 & R1).
    destruct (IH w1) as (r' & w2 & E2 & R2).
    exists (x' :: r'), w2. split; [|constructor; assumption].
    cbn [process_items]. unfold bind. rewrite E1, E2. reflexivity.
Qed.

Lemma process_fields_run (R : string -> json -> json -> Prop) (fs : fields) :
  Forall (fun kv => forall w, exists v' w',
            field_step processImageUrlsToBase64 (fst kv) (snd kv) w = (Val v', w')
            /\ R (fst kv) (snd kv) v') fs ->
  forall w, exists fs' w',
    process_fields fs w = (Val fs', w') /\
    Forall2 (fun kv kv' => fst kv = fst kv' /\ R (fst kv) (snd kv) (snd kv')) fs fs'.
Proof.
  induction 1 as [|[k v] r Hx _ IH]; intros w.
  - exists [], w. split; [reflexivity | constructor].
  - destruct (Hx w) as (v' & w1 & E1 & R1). cbn [fst snd] in E1, R1.
    destruct (IH w1) as (r' & w2 & E2 & R2).
    exists ((k, v') :: r'), w2. split.
    + cbn [process_fields]. unfold bind. rewrite E1, E2. reflexivity.
    + constructor; [split; [reflexivity | exact R1] | exact R2].
Qed.

Lemma process_items_fixed (l : list json) :
  Forall (fun x => forall w, exists w',
            processImageUrlsToBase64 x w = (Val x, w')) l ->
  forall w, exists w', process_items l w = (Val l, w').
Proof.
  induction 1 as [|x r Hx _ IH]; intros w.
  - exists w. reflexivity.
  - destruct (Hx w) as (w1 & E1). destruct (IH w1) as (w2 & E2).
    exists w2. cbn [process_items]. unfold bind. rewrite E1, E2. reflexivity.
Qed.

Lemma process_fields_fixed (fs : fields) :
  Forall (fun kv => forall w, exists w',
            field_step processImageUrlsToBase64 (fst kv) (snd kv) w
            = (Val (snd kv), w')) fs ->
  forall w, exists w', process_fields fs w = (Val fs, w').
Proof.
  induction 1 as [|[k v] r Hx _ IH]; intros w.
  - exists w. reflexivity.
  - destruct (Hx w) as (w1 & E1). cbn [fst snd] in E1.
    destruct (IH w1) as (w2 & E2).
    exists w2. cbn [process_fields]. unfold bind. rewrite E1, E2. reflexivity.
Qed.

Lemma Forall2_right {A B} (R : A -> B -> Prop) (Q : B -> Prop) l l' :
  (forall a b, R a b -> Q b) -> Forall2 R l l' -> Forall Q l'.
Proof. intros HRQ. induction 1; constructor; eauto. Qed.

(** *** The frame of the function *)

(** The function never throws, and its result differs from its argument
    only in [PhotoURL] properties that held an [http(s)://] string. *)
Lemma process_frame (data : json) :
  forall w, exists data' w',
    processImageUrlsToBase64 data w = (Val data', w') /\
    only_photos_differ data data'.
Proof.
  induction data as [ | b | n | s | l IH | fs IH ] using json_ind; intros w;
    try (eexists; exists w; split; [reflexivity | apply opd_same]).
  - destruct (process_items_run only_photos_differ l IH w) as (l' & w' & E & F).
    exists (JArr l'), w'. split; [|apply opd_arr; exact F].
    rewrite process_arr. unfold bind. rewrite E. reflexivity.
  - destruct (process_fields_run
                (fun k v v' => only_photos_differ v v' \/
                               (is_photo_url k v = true /\ exists s, v' = JStr s))
                fs) with (w := w) as (fs' & w' & E & F).
    + eapply Forall_impl; [|exact IH]. intros [k v] IHv w0. cbn [fst snd] in *.
      rewrite field_step_eq.
      destruct v; try (destruct (IHv w0) as (v' & w1 & E1 & F1);
                       exists v', w1; split; [exact E1 | left; exact F1]).
      destruct (is_photo_url k (JStr s)) eqn:Ep.
      * destruct (convert_photo_value s w0) as (w1 & E1).
        eexists; exists w1. split; [exact E1 | right; eauto].
      * eexists; exists w0. split; [reflexivity | left; apply opd_same].
    + exists (JObj fs'), w'. split; [|apply opd_obj; exact F].
      rewrite process_obj. unfold bind. rewrite E. reflexivity.
Qed.

Lemma process_total (data : json) (w : World) :
  exists data' w', processImageUrlsToBase64 data w = (Val data', w').
Proof. destruct (process_frame data w) as (d & w' & E & _). eauto. Qed.

Lemma field_step_total (k : string) (v : json) (w : World) :
  exists v' w', field_step processImageUrlsToBase64 k v w = (Val v', w').
Proof.
  rewrite field_step_eq. destruct v; try apply process_total.
  destruct (is_photo_url k (JStr s)); [|eauto].
  destruct (convert_photo_value s w) as (w' & E). eauto.
Qed.

(** *** Payloads with nothing to convert *)

Lemma has_http_photo_obj (fs : fields) :
  has_http_photo (JObj fs) = any_http_photo fs.
Proof. reflexivity. Qed.

Lemma has_photo_key_obj (fs : fields) :
  has_photo_key (JObj fs) = any_photo_key fs.
Proof. reflexivity. Qed.

Lemma process_untouched (data : json) :
  has_http_photo data = false ->
  forall w, processImageUrlsToBase64 data w = (Val data, w).
Proof.
  induction data as [ | b | n | s | l IH | fs IH ] using json_ind;
    intros Hn w; try reflexivity.
  - rewrite process_arr. unfold bind.
    assert (E : process_items l w = (Val l, w)).
    { cbn [has_http_photo] in Hn. revert w.
      induction IH as [|x r Hx _ IHr]; intros w; [reflexivity|].
      cbn [existsb] in Hn. apply orb_false_iff in Hn as [Hx0 Hr0].
      cbn [process_items]. unfold bind. rewrite (Hx Hx0), (IHr Hr0). reflexivity. }
    rewrite E. reflexivity.
  - rewrite process_obj. unfold bind.
    assert (E : process_fields fs w = (Val fs, w)).
    { rewrite has_http_photo_obj in Hn. revert w.
      induction IH as [|[k v] r Hx _ IHr]; intros w; [reflexivity|].
      cbn [any_http_photo] in Hn.
      apply orb_false_iff in Hn as [Hn Hr0]. apply orb_false_iff in Hn as [Hp Hv].
      cbn [process_fields snd] in *. unfold bind. rewrite field_step_eq.
      assert (Ev : match v with
                   | JStr url =>
                       if is_photo_url k v then convert_photo url w else (Val v, w)
                   | _ => processImageUrlsToBase64 v w
                   end = (Val v, w)).
      { destruct v; try (apply Hx; exact Hv). rewrite Hp. reflexivity. }
      rewrite Ev, (IHr Hr0). reflexivity. }
    rewrite E. reflexivity.
Qed.

Lemma no_photo_key_no_http_photo (data : json) :
  has_photo_key data = false -> has_http_photo data = false.
Proof.
  induction data as [ | b | n | s | l IH | fs IH ] using json_ind;
    intros Hn; try reflexivity.
  - cbn [has_photo_key has_http_photo] in *.
    induction IH as [|x r Hx _ IHr]; [reflexivity|].
    cbn [existsb] in *. apply orb_false_iff in Hn as [Hx0 Hr0].
    rewrite (Hx Hx0), (IHr Hr0). reflexivity.
  - rewrite has_photo_key_obj in Hn. rewrite has_http_photo_obj.
    induction IH as [|[k v] r Hx _ IHr]; [reflexivity|].
    cbn [any_photo_key any_http_photo snd] in *.
    apply orb_false_iff in Hn as [Hn Hr0]. apply orb_false_iff in Hn as [Hk Hv].
    unfold is_photo_url. rewrite Hk, (Hx Hv), (IHr Hr0). reflexivity.
Qed.

(** *** What a field holds after the call *)

Lemma Forall2_nth_error {A B} (R : A -> B -> Prop) l l' n x :
  Forall2 R l l' -> nth_error l n = Some x ->
  exists x', nth_error l' n = Some x' /\ R x x'.
Proof.
  intros F. revert n. induction F as [|a b r r' Rab _ IH]; intros [|n] E;
    try discriminate.
  - injection E as ->. exists b. split; [reflexivity | exact Rab].
  - apply IH. exact E.
Qed.

Lemma Forall2_assoc (R : string -> json -> json -> Prop) fs fs' k v :
  Forall2 (fun kv kv' => fst kv = fst kv' /\ R (fst kv) (snd kv) (snd kv')) fs fs' ->
  assoc k fs = Some v ->
  exists v', assoc k fs' = Some v' /\ exists k', (k =? k')%string = true /\ R k' v v'.
Proof.
  induction 1 as [|[k1 v1] [k2 v2] r r' [Ek Rv] _ IH]; intros E; [discriminate|].
  cbn [fst snd assoc] in *. subst k2.
  destruct (k =? k1)%string eqn:Ekk.
  - injection E as ->. exists v2. split; [reflexivity|]. exists k1. auto.
  - apply IH. exact E.
Qed.

(** Every property of every object of the payload is left with what the
    loop body computes for it, in the world the loop reaches it in. *)
Lemma process_at_field (p : path) :
  forall data w k v,
    lookup_path (p ++ [Key k])%list data = Some v ->
    exists data' w' w_at v' w2,
      processImageUrlsToBase64 data w = (Val data', w') /\
      field_step processImageUrlsToBase64 k v w_at = (Val v', w2) /\
      lookup_path (p ++ [Key k])%list data' = Some v'.
Proof.
  induction p as [|st p IH]; intros data w k v L.
  - cbn [app lookup_path] in L. destruct data; try discriminate.
    destruct (assoc k l) as [x|] eqn:Ea; [|discriminate].
    injection L as ->.
    destruct (process_fields_run
                (fun k v v' => exists w_at w2,
                     field_step processImageUrlsToBase64 k v w_at = (Val v', w2))
                l) with (w := w) as (fs' & w' & E & F).
    { apply Forall_forall. intros [k0 v0] _ w0. cbn [fst snd].
      destruct (field_step_total k0 v0 w0) as (v' & w1 & E1). eauto 6. }
    destruct (Forall2_assoc
                (fun k v v' => exists w_at w2,
                     field_step processImageUrlsToBase64 k v w_at = (Val v', w2))
                _ _ _ _ F Ea) as (v' & Ea' & k' & Ek & w_at & w2 & Ef).
    apply String.eqb_eq in Ek. subst k'.
    exists (JObj fs'), w', w_at, v', w2. repeat split.
    + rewrite process_obj. unfold bind. rewrite E. reflexivity.
    + exact Ef.
    + cbn [app lookup_path]. rewrite Ea'. reflexivity.
  - cbn [app lookup_path] in L. destruct st as [n|k0].
    + destruct data; try discriminate.
      destruct (nth_error l n) as [x|] eqn:En; [|discriminate].
      destruct (process_items_run
                  (fun x x' => exists w_at w2,
                       processImageUrlsToBase64 x w_at = (Val x', w2))
                  l) with (w := w) as (l' & w' & E & F).
      { apply Forall_forall. intros x0 _ w0.
        destruct (process_total x0 w0) as (x' & w1 & E1). eauto 6. }
      destruct (Forall2_nth_error
                (fun x x' => exists w_at w2,
                     processImageUrlsToBase64 x w_at = (Val x', w2))
                _ _ _ _ F En) as (x' & En' & wx & wx' & Ex).
      destruct (IH x wx k v L) as (x'' & wx'' & w_at & v' & w2 & Ex' & Ef & Lx).
      rewrite Ex in Ex'. injection Ex' as <- <-.
      exists (JArr l'), w', w_at, v', w2. repeat split.
      * rewrite process_arr. unfold bind. rewrite E. reflexivity.
      * exact Ef.
      * cbn [app lookup_path]. rewrite En'. exact Lx.
    + destruct data; try discriminate.
      destruct (assoc k0 l) as [x|] eqn:Ea; [|discriminate].
      destruct (process_fields_run
                  (fun k v v' => exists w_at w2,
                       field_step processImageUrlsToBase64 k v w_at = (Val v', w2))
                  l) with (w := w) as (fs' & w' & E & F).
      { apply Forall_forall. intros [k1 v1] _ w0. cbn [fst snd].
        destruct (field_step_total k1 v1 w0) as (v' & w1 & E1). eauto 6. }
      destruct (Forall2_assoc
                (fun k v v' => exists w_at w2,
                     field_step processImageUrlsToBase64 k v w_at = (Val v', w2))
                _ _ _ _ F Ea) as (x' & Ea' & k' & Ek & wx & wx' & Ex).
      assert (Hx : field_step processImageUrlsToBase64 k' x wx
                   = processImageUrlsToBase64 x wx).
      { rewrite field_step_eq. destruct x; try reflexivity.
        destruct p as [|[?|?] ?]; cbn in L; discriminate L. }
      rewrite Hx in Ex.
      destruct (IH x wx k v L) as (x'' & wx'' & w_at & v' & w2 & Ex' & Ef & Lx).
      rewrite Ex in Ex'. injection Ex' as <- <-.
      exists (JObj fs'), w', w_at, v', w2. repeat split.
      * rewrite process_obj. unfold bind. rewrite E. reflexivity.
      * exact Ef.
      * cbn [app lookup_path]. rewrite Ea'. exact Lx.
Qed.

(** The same, for a [PhotoURL] that holds an [http(s)://] string: it is left
    with what the image host answered when asked. *)
Lemma process_at_photo (p : path) (data : json) (w : World) (url : string) :
  lookup_path (p ++ [Key "PhotoURL"])%list data = Some (JStr url) ->
  is_http url = true ->
  exists data' w' e,
    processImageUrlsToBase64 data w = (Val data', w') /\
    lookup_path (p ++ [Key "PhotoURL"])%list data' =
      Some (JStr (converted url (fst (net_fetch (image_request url) e)))).
Proof.
  intros L Hh.
  destruct (process_at_field p data w _ _ L)
    as (data' & w' & w_at & v' & w2 & E & Ef & L').
  rewrite field_step_eq in Ef. unfold is_photo_url in Ef.
  rewrite String.eqb_refl, Hh in Ef. cbn [andb] in Ef.
  destruct (convert_photo_value url w_at) as (w3 & Ec). rewrite Ec in Ef.
  injection Ef as <- <-.
  exists data', w', (ext w_at). split; [exact E | exact L'].
Qed.

(** *** A second call *)

Lemma converted_cases (url : string) (o : outcome response) :
  converted url o = url \/ exists ct bs, converted url o = data_uri ct bs.
Proof.
  destruct o as [r|e]; cbn; [|left; reflexivity].
  destruct (resp_ok r); [|left; reflexivity].
  destruct (resp_body r); [right; eauto | left; reflexivity].
Qed.

Lemma convert_photo_again (url : string) (w : World) :
  fetch_is_stable ->
  let s := converted url (fst (net_fetch (image_request url) (ext w))) in
  forall k w2, exists w3,
    field_step processImageUrlsToBase64 k (JStr s) w2 = (Val (JStr s), w3).
Proof.
  intros St s k w2. rewrite field_step_eq.
  destruct (is_photo_url k (JStr s)) eqn:Ep; [|eauto].
  destruct (converted_cases url (fst (net_fetch (image_request url) (ext w))))
    as [Eu | (ct & bs & Ed)].
  - destruct (convert_photo_value s w2) as (w3 & E). exists w3. rewrite E.
    assert (X : converted s (fst (net_fetch (image_request s) (ext w2))) = s).
    { unfold s at 1 2. rewrite Eu.
      rewrite (St (image_request url) (ext w2) (ext w)). reflexivity. }
    rewrite X. reflexivity.
  - exfalso. unfold is_photo_url, s in Ep. rewrite Ed, data_uri_not_http in Ep.
    rewrite andb_false_r in Ep. discriminate.
Qed.

Lemma process_not_string (v v' : json) (w w' : World) :
  processImageUrlsToBase64 v w = (Val v', w') ->
  (forall s, v <> JStr s) ->
  forall k w2,
    field_step processImageUrlsToBase64 k v' w2 = processImageUrlsToBase64 v' w2.
Proof.
  intros E Hs k w2. rewrite field_step_eq.
  destruct (process_frame v w) as (d & wd & Ed & Fd).
  rewrite E in Ed. injection Ed as Hd Hw. subst d wd.
  destruct v'; try reflexivity.
  inversion Fd; subst. elim (Hs s). reflexivity.
Qed.

Lemma process_again (data : json) :
  fetch_is_stable ->
  forall w, exists data' w',
    processImageUrlsToBase64 data w = (Val data', w') /\
    forall w2, exists w3, processImageUrlsToBase64 data' w2 = (Val data', w3).
Proof.
  intros St.
  induction data as [ | b | n | s | l IH | fs IH ] using json_ind; intros w;
    try (eexists; exists w; split; [reflexivity | intros w2; exists w2; reflexivity]).
  - destruct (process_items_run
                (fun _ x' => forall w2, exists w3,
                     processImageUrlsToBase64 x' w2 = (Val x', w3))
                l IH w) as (l' & w' & E & F).
    exists (JArr l'), w'. split.
    + rewrite process_arr. unfold bind. rewrite E. reflexivity.
    + intros w2.
      destruct (process_items_fixed l') with (w := w2) as (w3 & E3).
      { eapply Forall2_right; [|exact F]. intros a b Hb. exact Hb. }
      exists w3. rewrite process_arr. unfold bind. rewrite E3. reflexivity.
  - destruct (process_fields_run
                (fun k _ v' => forall w2, exists w3,
                     field_step processImageUrlsToBase64 k v' w2 = (Val v', w3))
                fs) with (w := w) as (fs' & w' & E & F).
    + eapply Forall_impl; [|exact IH]. intros [k v] IHv w0. cbn [fst snd] in *.
      rewrite field_step_eq.
      assert (Hns : (forall s, v <> JStr s) ->
                    exists v' w1,
                      processImageUrlsToBase64 v w0 = (Val v', w1) /\
                      forall w2, exists w3,
                        field_step processImageUrlsToBase64 k v' w2 = (Val v', w3)).
      { intros Hs. destruct (IHv w0) as (v' & w1 & E1 & F1). exists v', w1.
        split; [exact E1|]. intros w2.
        rewrite (process_not_string _ _ _ _ E1 Hs). apply F1. }
      destruct v; try (apply Hns; intros s0; discriminate).
      destruct (is_photo_url k (JStr s)) eqn:Ep.
      * destruct (convert_photo_value s w0) as (w1 & E1).
        eexists; exists w1. split; [exact E1|].
        intros w2. apply convert_photo_again. exact St.
      * exists (JStr s), w0. split; [reflexivity|].
        intros w2. exists w2. rewrite field_step_eq, Ep. reflexivity.
    + exists (JObj fs'), w'. split.
      * rewrite process_obj. unfold bind. rewrite E. reflexivity.
      * intros w2.
        destruct (process_fields_fixed fs') with (w := w2) as (w3 & E3).
        { eapply Forall2_right; [|exact F]. intros a b [Ek Hb].
          rewrite <- Ek. exact Hb. }
        exists w3. rewrite process_obj. unfold bind. rewrite E3. reflexivity.
Qed.

(** ** The properties of the resolver *)


(** C2. The call never throws and changes nothing but [PhotoURL] properties
    that held an [http(s)://] string: the result has the shape of the
    payload, with every other key and value as it was; and a payload with no
    key [PhotoURL] at any depth comes back as it was, with no request made
    and nothing logged. *)
Theorem resolve_changes_only_photos (data : json) (w : World) :
  exists data' w',
    processImageUrlsToBase64 data w = (Val data', w') /\
    only_photos_differ data data' /\
    (has_photo_key data = false -> data' = data /\ w' = w).
Proof.
  destruct (process_frame data w) as (data' & w' & E & F).
  exists data', w'. split; [exact E|]. split; [exact F|].
  intros Hn. apply no_photo_key_no_http_photo in Hn.
  rewrite (process_untouched data Hn w) in E. split; congruence.
Qed.

(** C4. A [PhotoURL] string that does not start with [http://] or
    [https://] is left as it is, and a payload none of whose [PhotoURL]
    values is such a URL comes back unchanged with no request made; hence,
    when the image host answers a request the same way each time, a second
    call on the result of a first one changes nothing. *)
Theorem resolve_is_idempotent :
  (forall (p : path) (data : json) (w : World) (s : string),
     lookup_path (p ++ [Key "PhotoURL"])%list data = Some (JStr s) ->
     is_http s = false ->
     exists data' w',
       processImageUrlsToBase64 data w = (Val data', w') /\
       lookup_path (p ++ [Key "PhotoURL"])%list data' = Some (JStr s)) /\
  (forall (data : json) (w : World),
     has_http_photo data = false ->
     processImageUrlsToBase64 data w = (Val data, w)) /\
  (fetch_is_stable ->
   forall (data data1 : json) (w w1 : World),
     processImageUrlsToBase64 data w = (Val data1, w1) ->
     forall w2, exists w3, processImageUrlsToBase64 data1 w2 = (Val data1, w3)).
Proof.
  split; [|split].
  - intros p data w s L Hn.
    destruct (process_at_field p data w _ _ L)
      as (data' & w' & w_at & v' & w2 & E & Ef & L').
    rewrite field_step_eq in Ef. unfold is_photo_url in Ef.
    rewrite Hn, andb_false_r in Ef. injection Ef as <- <-.
    exists data', w'. split; assumption.
  - intros data w Hn. apply process_untouched. exact Hn.
  - intros St data data1 w w1 E w2.
    destruct (process_again data St w) as (d & wd & Ed & Hd).
    rewrite E in Ed. injection Ed as <- <-. apply Hd.
Qed.

(** ** The requests the resolver makes *)

Lemma fetched_refl (w : World) : fetched w w [].
Proof.
  split; [cbn; rewrite app_nil_r; reflexivity|].
  exists []. split; [rewrite app_nil_r; reflexivity | cbn; lia].
Qed.

Lemma fetched_trans (w1 w2 w3 : World) (us vs : list string) :
  fetched w1 w2 us -> fetched w2 w3 vs -> fetched w1 w3 (us ++ vs)%list.
Proof.
  intros [S1 (l1 & C1 & L1)] [S2 (l2 & C2 & L2)]. split.
  - rewrite S2, S1, map_app, app_assoc. reflexivity.
  - exists (l1 ++ l2)%list. split.
    + rewrite C2, C1, app_assoc. reflexivity.
    + rewrite !length_app. lia.
Qed.

Lemma convert_photo_fetched (url : string) (w : World) :
  exists v w', convert_photo url w = (Val v, w') /\ fetched w w' [url].
Proof.
  unfold convert_photo, try_catch, bind, fetch, buffer, lift, ret,
    console_warn, console_error, fetched.
  destruct (net_fetch (image_request url) (ext w)) as [[r|m] e]; cbn.
  - destruct (resp_ok r); cbn.
    + destruct (resp_body r) as [bs|m]; cbn; do 2 eexists;
        (split; [reflexivity|]); cbn; (split; [reflexivity|]).
      * exists []. rewrite app_nil_r. split; [reflexivity | cbn; lia].
      * eexists. split; [reflexivity | cbn; lia].
    + do 2 eexists. split; [reflexivity|]. cbn. split; [reflexivity|].
      eexists. split; [reflexivity | cbn; lia].
  - do 2 eexists. split; [reflexivity|]. cbn. split; [reflexivity|].
    eexists. split; [reflexivity | cbn; lia].
Qed.

Lemma photo_urls_obj (fs : fields) : photo_urls (JObj fs) = field_photo_urls fs.
Proof. reflexivity. Qed.

Lemma process_fetched (data : json) :
  forall w, exists data' w',
    processImageUrlsToBase64 data w = (Val data', w') /\
    fetched w w' (photo_urls data).
Proof.
  induction data as [ | b | n | s | l IH | fs IH ] using json_ind; intros w;
    try (eexists; exists w; split; [reflexivity | apply fetched_refl]).
  - assert (E : exists l' w', process_items l w = (Val l', w') /\
                              fetched w w' (flat_map photo_urls l)).
    { revert w. induction IH as [|x r Hx _ IHr]; intros w.
      - exists [], w. split; [reflexivity | apply fetched_refl].
      - destruct (Hx w) as (x' & w1 & E1 & F1).
        destruct (IHr w1) as (r' & w2 & E2 & F2).
        exists (x' :: r'), w2. split.
        + cbn [process_items]. unfold bind. rewrite E1, E2. reflexivity.
        + cbn [flat_map]. apply fetched_trans with (1 := F1) (2 := F2). }
    destruct E as (l' & w' & E & F). exists (JArr l'), w'. split; [|exact F].
    rewrite process_arr. unfold bind. rewrite E. reflexivity.
  - assert (E : exists fs' w', process_fields fs w = (Val fs', w') /\
                               fetched w w' (field_photo_urls fs)).
    { revert w. induction IH as [|[k v] r Hx _ IHr]; intros w.
      - exists [], w. split; [reflexivity | apply fetched_refl].
      - cbn [snd] in Hx.
        assert (Ev : exists v' w1,
                   field_step processImageUrlsToBase64 k v w = (Val v', w1) /\
                   fetched w w1 match v with
                                | JStr url => if is_photo_url k v then [url] else []
                                | _ => photo_urls v
                                end).
        { rewrite field_step_eq. destruct v; try apply Hx.
          destruct (is_photo_url k (JStr s)).
          - apply convert_photo_fetched.
          - exists (JStr s), w. split; [reflexivity | apply fetched_refl]. }
        destruct Ev as (v' & w1 & E1 & F1).
        destruct (IHr w1) as (r' & w2 & E2 & F2).
        exists ((k, v') :: r'), w2. split.
        + cbn [process_fields]. unfold bind. rewrite E1, E2. reflexivity.
        + cbn [field_photo_urls]. apply fetched_trans with (1 := F1) (2 := F2). }
    destruct E as (fs' & w' & E & F). exists (JObj fs'), w'. split.
    + rewrite process_obj. unfold bind. rewrite E. reflexivity.
    + rewrite photo_urls_obj. exact F.
Qed.

(** X1. The resolver issues one GET per [PhotoURL] that holds an
    [http(s)://] string, in traversal order, and no other request; it
    writes one console line per such property at most. *)
Theorem resolver_fetches_each_photo_once (data data' : json) (w w' : World) :
  processImageUrlsToBase64 data w = (Val data', w') ->
  sent w' = (sent w ++ map image_request (photo_urls data))%list /\
  exists lines,
    console w' = (console w ++ lines)%list /\
    (List.length lines <= List.length (photo_urls data))%nat.
Proof.
  intros E. destruct (process_fetched data w) as (d & wd & Ed & F).
  rewrite E in Ed. injection Ed as <- <-. exact F.
Qed.

(** X21. Whatever the image host does, a [PhotoURL] that held an
    [http(s)://] string holds, after the call, either that same URL or a
    data URI [data:<mime>;base64,<base64 of some bytes>] whose mime is not
    empty. *)
Theorem photo_is_kept_or_inlined
    (p : path) (data : json) (w : World) (url : string) :
  lookup_path (p ++ [Key "PhotoURL"])%list data = Some (JStr url) ->
  is_http url = true ->
  exists data' w',
    processImageUrlsToBase64 data w = (Val data', w') /\
    (lookup_path (p ++ [Key "PhotoURL"])%list data' = Some (JStr url) \/
     exists mime bytes,
       mime <> "" /\
       lookup_path (p ++ [Key "PhotoURL"])%list data' =
         Some (JStr ("data:" ++ mime ++ ";base64," ++ base64 bytes))).
Proof.
  intros L Hh.
  destruct (process_at_photo p data w url L Hh) as (data' & w' & e & E & L').
  exists data', w'. split; [exact E|]. rewrite L'. unfold converted.
  destruct (fst (net_fetch (image_request url) e)) as [r|m]; [|left; reflexivity].
  destruct (resp_ok r); [|left; reflexivity].
  destruct (resp_body r) as [bs|m]; [|left; reflexivity].
  right. exists (or_default (resp_content_type r) "image/jpeg"), bs.
  split; [|reflexivity].
  unfold or_default. destruct (resp_content_type r) as [s|]; [|discriminate].
  destruct (s =? "")%string eqn:Es; [discriminate|].
  apply String.eqb_neq. exact Es.
Qed.

End Resolver.

(** * Properties of the routers *)

Section RouterProperties.
Context `{Host}.
Variable cfg : Config.

Lemma snippet_is_the_start (n : nat) (t : string) :
  units (substring_to n t) = firstn n (units t) /\
  (List.length (units (substring_to n t)) <= n)%nat /\
  ((List.length (units t) <= n)%nat -> substring_to n t = t).
Proof.
  split; [apply units_substring_to|]. split; [|apply substring_to_whole].
  rewrite units_substring_to, length_firstn. apply Nat.le_min_l.
Qed.

Lemma eqb_empty_false (s : string) : s <> "" -> (s =? "")%string = false.
Proof. intros Hs. apply String.eqb_neq. exact Hs. Qed.

Ltac run :=
  unfold try_catch, bind, fetch, text, buffer, lift, ret, throw,
    console_error, console_warn;
  cbn [fst snd ext sent console].

(** ** The properties of [/api/:action] *)

(** C7. When the upstream answers [/api/:action] with a body that is not
    JSON, whatever its status, both variants reply 500 with an envelope
    whose error names the non-JSON response and carries the upstream status,
    and log a snippet of the body text: its first 500 characters (code
    units), the whole text when it has no more. *)
Theorem non_json_upstream_is_500
    (action : string) (body : option json) (w : World)
    (resp : response) (e' : Ext) (bytes : list byte) :
  action <> "" ->
  net_fetch (api_request cfg action body) (ext w) = (Val resp, e') ->
  resp_body resp = Val bytes ->
  JSON_parse (Buffer_toString bytes) = None ->
  exists snippet,
    let r := Json 500
               (JObj [("success", JBool false);
                      ("error", JStr ("GAS returned non-JSON response for action "
                                      ++ action ++ ". Status: "
                                      ++ string_of_Z (resp_status resp)))]) in
    let w' := mkWorld _ e' (sent w ++ [api_request cfg action body])
                (console w ++ [Error [LStr ("Failed to parse GAS response for action "
                                            ++ dquote ++ action ++ dquote ++ ":");
                                      LStr snippet]]) in
    part_000 cfg (PostApi action) body w = (Val r, w') /\
    app_js cfg (PostApi action) body w = (Val r, w') /\
    units snippet = firstn 500 (units (Buffer_toString bytes)) /\
    (List.length (units snippet) <= 500)%nat /\
    ((List.length (units (Buffer_toString bytes)) <= 500)%nat ->
     snippet = Buffer_toString bytes).
Proof.
  intros Ha Ef Eb Ep. exists (substring_to 500 (Buffer_toString bytes)).
  split; [|split; [|apply snippet_is_the_start]];
    cbn [part_000 app_js]; unfold post_api; rewrite (eqb_empty_false _ Ha);
    run; rewrite Ef, Eb; cbn -[substring_to]; rewrite Ep; reflexivity.
Qed.

(** C10. When the upstream answers [/api/:action] with a success status and
    a JSON body [result] whose [success] or whose [data] is falsy, the
    variant that resolves media replies 200 with [result] as it came and has
    issued the upstream request and no other: the resolver was not called. *)
Theorem falsy_data_bypasses_media
    (action : string) (body : option json) (w : World)
    (resp : response) (e' : Ext) (bytes : list byte)
    (result : json) (success : option json) :
  action <> "" ->
  net_fetch (api_request cfg action body) (ext w) = (Val resp, e') ->
  resp_ok resp = true ->
  resp_body resp = Val bytes ->
  JSON_parse (Buffer_toString bytes) = Some result ->
  getProp result "success" = Val success ->
  (truthy_opt success = false \/
   exists data, getProp result "data" = Val data /\ truthy_opt data = false) ->
  part_000 cfg (PostApi action) body w =
    (Val (Json 200 result),
     mkWorld _ e' (sent w ++ [api_request cfg action body]) (console w)).
Proof.
  intros Ha Ef Eo Eb Ep Es Hf.
  cbn [part_000]. unfold post_api, media_step_part_000.
  rewrite (eqb_empty_false _ Ha).
  run. rewrite Ef, Eb. cbn. rewrite Ep, Eo. cbn. rewrite Es.
  destruct (truthy_opt success) eqn:Et; [|reflexivity].
  destruct Hf as [Hf | (data & Ed & Hd)]; [discriminate|].
  rewrite Ed. destruct data as [d|]; [|reflexivity].
  cbn in Hd. rewrite Hd. reflexivity.
Qed.

Lemma assoc_set_other (k k' : string) (v : json) (fs : fields) :
  k <> k' -> assoc k (assoc_set k' v fs) = assoc k fs.
Proof.
  intros Hk. induction fs as [|[k0 v0] r IH]; [reflexivity|].
  cbn [assoc_set]. destruct (k' =? k0)%string eqn:E0; cbn [assoc].
  - apply String.eqb_eq in E0. subst k0.
    rewrite (proj2 (String.eqb_neq k k') Hk). reflexivity.
  - rewrite IH. reflexivity.
Qed.


(** ** The properties of [/upload-image] *)

(** C8. With the access token, the owner or the repository absent from the
    configuration, [/upload-image] replies 500 with the error of the missing
    configuration, whatever the body, before the body is read and with no
    request made: the world is as it was. *)
Theorem upload_without_configuration_is_500 (body : option json) (w : World) :
  GITHUB_API_TOKEN cfg = None \/ GITHUB_OWNER cfg = None \/ GITHUB_REPO cfg = None ->
  app_js cfg PostUploadImage body w =
    (Val (Json 500
            (JObj [("success", JBool false);
                   ("error", JStr "GitHub integration is not configured on the server.")])),
     w).
Proof.
  intros Hc. cbn [app_js]. unfold post_upload_image.
  destruct Hc as [-> | [-> | ->]]; cbn [env_set negb orb].
  - reflexivity.
  - rewrite orb_true_r. reflexivity.
  - rewrite orb_true_r. reflexivity.
Qed.

Lemma is_safe_char_spec (c : ascii) :
  is_safe_char c = true <-> In c (list_ascii_of_string safe_chars).
Proof.
  rewrite is_safe_char_mem, existsb_exists. split.
  - intros (x & Hx & E). apply Ascii.eqb_eq in E. subst x. exact Hx.
  - intros Hc. exists c. split; [exact Hc | apply Ascii.eqb_refl].
Qed.

Lemma get_in (s : string) (i : nat) (c : ascii) :
  String.get i s = Some c -> In c (list_ascii_of_string s).
Proof.
  revert i. induction s as [|c0 r IH]; intros [|i] E; try discriminate E.
  - injection E as ->. left. reflexivity.
  - right. apply (IH i). exact E.
Qed.

Lemma replace_unit_replaced (u : string) : replaced u (replace_unit u).
Proof.
  unfold replace_unit. destruct (unit_is_safe u) eqn:E.
  - left. destruct u as [|c [|c' r]]; try discriminate E.
    exists c. split; [reflexivity|]. split; [|reflexivity].
    apply is_safe_char_spec. exact E.
  - right. split; [|reflexivity]. intros c -> Hc.
    apply is_safe_char_spec in Hc. cbn in E. congruence.
Qed.

(** C9. For a file name that is a non-empty string, the one request the
    uploader issues is a PUT to the hosting API under [images/], at the
    millisecond timestamp, a [-] and the name with every character (code
    unit) outside [[A-Za-z0-9.-]] replaced by [_], unit for unit: what
    follows the timestamp prefix holds characters of [[A-Za-z0-9.-_]]
    only. *)
Theorem upload_path_is_sanitized
    (body : option json) (w : World) (image : option json) (name : string) :
  env_set (GITHUB_API_TOKEN cfg) = true ->
  env_set (GITHUB_OWNER cfg) = true ->
  env_set (GITHUB_REPO cfg) = true ->
  destructure body "image" = Val image ->
  truthy_opt image = true ->
  destructure body "fileName" = Val (Some (JStr name)) ->
  name <> "" ->
  let stored := string_of_Z (Date_getTime (ext w)) ++ "-" ++ replace_unsafe name in
  (exists r w' req,
     app_js cfg PostUploadImage body w = (Val r, w') /\
     sent w' = (sent w ++ [req])%list /\
     req_method req = PUT /\
     req_url req =
       "https://api.github.com/repos/" ++ env_text (GITHUB_OWNER cfg) ++ "/"
       ++ env_text (GITHUB_REPO cfg) ++ "/contents/images/" ++ stored) /\
  Forall2 replaced (units name) (units (replace_unsafe name)) /\
  (forall i c, String.get i (replace_unsafe name) = Some c ->
     In c (list_ascii_of_string (safe_chars ++ "_"))).
Proof.
  intros Ht Ho Hr Ei Hi En Hn. cbn zeta.
  split; [|split].
  - cbn [app_js]. unfold post_upload_image. rewrite Ht, Ho, Hr. cbn [negb orb].
    unfold new_Date_getTime, json_of. run. rewrite Ei, En, Hi.
    cbn [truthy_opt truthy negb orb call_replace].
    rewrite (eqb_empty_false _ Hn). cbn [negb].
    destruct (net_fetch (upload_request cfg (sanitizedFileName
                 (Date_getTime (ext w)) (replace_unsafe name)) image) (ext w))
      as [[resp|m] e1] eqn:Ef; cbn;
      [|do 3 eexists; split; [reflexivity|]; cbn; repeat split].
    destruct (resp_body resp) as [bs|m]; cbn;
      [|do 3 eexists; split; [reflexivity|]; cbn; repeat split].
    destruct (JSON_parse (Buffer_toString bs)) as [result|]; cbn;
      [|do 3 eexists; split; [reflexivity|]; cbn; repeat split].
    destruct (resp_ok resp); cbn.
    + destruct (content_download_url result) as [[u|]|m]; cbn;
        [destruct (truthy u); cbn| |];
        try (do 3 eexists; split; [reflexivity|]; cbn; repeat split);
        (destruct (getProp result "message") as [msg|m']; cbn;
         [destruct (js_toString (value_or msg (JStr "Failed to upload file.")));
          cbn|]);
        do 3 eexists; (split; [reflexivity|]; cbn; repeat split).
    + destruct (getProp result "message") as [msg|m']; cbn;
        [destruct (js_toString (value_or msg (JStr "Failed to upload file.")));
         cbn|];
        do 3 eexists; (split; [reflexivity|]; cbn; repeat split).
  - rewrite units_replace_unsafe. generalize (units name) as l.
    induction l as [|u l IH]; constructor; [apply replace_unit_replaced | exact IH].
  - intros i c Hc. apply get_in in Hc.
    pose proof (replace_unsafe_chars name) as F. rewrite Forall_forall in F.
    rewrite list_ascii_of_append. apply in_or_app.
    destruct (F c Hc) as [E | ->].
    + left. apply is_safe_char_spec. exact E.
    + right. left. reflexivity.
Qed.

(** ** Every route *)

Ltac crunch Hr :=
  repeat (cbn in Hr;
          match type of Hr with
          | context [match ?x with _ => _ end] =>
              lazymatch x with
              | context [match _ with _ => _ end] => fail
              | _ => destruct x eqn:?
              end
          end).

Ltac forwarded w :=
  match goal with
  | Hf : net_fetch ?req (ext w) = (Val ?resp, ?e),
    Hb : resp_body ?resp = Val ?bs,
    Hp : JSON_parse (Buffer_toString ?bs) = Some ?res |- _ =>
      exists req, resp, e, bs, res;
      split; [reflexivity|]; split; [exact Hf|]; split; [exact Hb|];
      split; [exact Hp | apply opd_same]
  end.

Ltac settle Hr w :=
  first [ discriminate Hr
        | injection Hr as <- <- <-;
          first [ left; reflexivity | right; forwarded w ] ].

Lemma login_envelopes (body : option json) (w w' : World) (status : Z) (b : json) :
  post_login cfg body w = (Val (Json status b), w') ->
  success_false_has_error b = true \/ from_upstream cfg w b.
Proof.
  intros Hr. unfold post_login in Hr. unfold from_upstream.
  unfold try_catch, bind, fetch, text, buffer, lift, ret, throw, console_error in Hr.
  crunch Hr; settle Hr w.
Qed.

Lemma api_envelopes (action : string) (body : option json)
    (w w' : World) (status : Z) (b : json) :
  post_api cfg media_step_app_js action body w = (Val (Json status b), w') ->
  success_false_has_error b = true \/ from_upstream cfg w b.
Proof.
  intros Hr. unfold post_api, media_step_app_js in Hr. unfold from_upstream.
  unfold try_catch, bind, fetch, text, buffer, lift, ret, throw, console_error in Hr.
  crunch Hr; settle Hr w.
Qed.

Lemma upload_envelopes (body : option json) (w w' : World) (status : Z) (b : json) :
  post_upload_image cfg body w = (Val (Json status b), w') ->
  success_false_has_error b = true.
Proof.
  intros Hr. unfold post_upload_image, json_of, new_Date_getTime in Hr.
  unfold try_catch, bind, fetch, text, buffer, lift, ret, throw, console_error in Hr.
  crunch Hr; first [discriminate Hr | injection Hr as <- <- <-; reflexivity].
Qed.

Lemma send_static_no_json (name log : string) (status_of : option Z -> Z)
    (message : string) (w w' : World) (status : Z) (b : json) :
  send_static cfg name log status_of message w <> (Val (Json status b), w').
Proof.
  unfold send_static. run.
  destruct (fs_sendFile _ _) as [|m st [|]]; cbn; discriminate.
Qed.

Lemma app_js_envelopes (e : endpoint) (body : option json)
    (w w' : World) (status : Z) (b : json) :
  app_js cfg e body w = (Val (Json status b), w') ->
  success_false_has_error b = true \/ from_upstream cfg w b.
Proof.
  destruct e; cbn [app_js]; intros Hr;
    try (exfalso; revert Hr; apply send_static_no_json);
    try discriminate Hr.
  - apply login_envelopes with (1 := Hr).
  - left. apply upload_envelopes with (1 := Hr).
  - apply api_envelopes with (1 := Hr).
Qed.

Lemma bind_ret_r {A} (m : M A) (w : World) : (r <- m ;; ret r) w = m w.
Proof. unfold bind, ret. destruct (m w) as [[a|e] w']; reflexivity. Qed.

Lemma not_ok_not_200 (r : response) :
  resp_ok r = false -> (status_or (resp_status r) 502 =? 200) = false.
Proof.
  unfold resp_ok, status_or. intros Hr.
  destruct (resp_status r =? 0) eqn:E0; [reflexivity|].
  apply Z.eqb_neq. intros E. rewrite E in Hr. discriminate Hr.
Qed.

(** The variant that resolves media is the other one followed by the
    media-resolution step, on every route they both register. *)
Lemma part_000_as_app_js (e : endpoint) (body : option json) (w : World) :
  e <> PostUploadImage ->
  part_000 cfg e body w = (r <- app_js cfg e body ;; resolve_media e r) w.
Proof.
  intros He.
  destruct e; cbn [part_000 app_js];
    try (symmetry; apply (bind_ret_r _ w)); [contradiction|].
  unfold post_api. destruct (action =? "")%string; [reflexivity|].
  run. destruct (net_fetch (api_request cfg action body) (ext w)) as [[resp|m] e1];
    cbn; [|reflexivity].
  destruct (resp_body resp) as [bs|m]; cbn; [|reflexivity].
  destruct (JSON_parse (Buffer_toString bs)) as [result|]; cbn; [|reflexivity].
  destruct (resp_ok resp) eqn:Eo; cbn.
  2:{ rewrite (not_ok_not_200 _ Eo). reflexivity. }
  unfold media_step_part_000, media_step_app_js. rewrite Eo. run.
  destruct (getProp result "success") as [success|m] eqn:Es; cbn; [|reflexivity].
  destruct (truthy_opt success) eqn:Et; cbn; [|rewrite Es, Et; reflexivity].
  destruct (getProp result "data") as [[d|]|m] eqn:Ed; cbn.
  - destruct (truthy d) eqn:Etd; cbn; rewrite Es, Et, Ed, Etd; [|reflexivity].
    match goal with |- context [processImageUrlsToBase64 d ?w1] =>
      destruct (process_total d w1) as (d' & w2 & E); rewrite E end.
    reflexivity.
  - rewrite Es, Et, Ed. reflexivity.
  - destruct result; discriminate.
Qed.

Lemma resolved_data_keeps_success (result d' : json) (success : option json) :
  getProp result "success" = Val success ->
  truthy_opt success = true ->
  success_false_has_error (set_prop result "data" d') = true.
Proof.
  intros Es Ht.
  destruct result; try reflexivity.
  cbn [set_prop success_false_has_error]. cbn in Es. injection Es as Es.
  rewrite assoc_set_other by discriminate. rewrite Es.
  destruct success as [[ | [|] | | | | ]|]; try reflexivity; discriminate Ht.
Qed.

Lemma part_000_envelopes (e : endpoint) (body : option json)
    (w w' : World) (status : Z) (b : json) :
  part_000 cfg e body w = (Val (Json status b), w') ->
  success_false_has_error b = true \/ from_upstream cfg w b.
Proof.
  intros Hr.
  assert (He : e = PostUploadImage \/ e <> PostUploadImage)
    by (destruct e; (left; reflexivity) || (right; discriminate)).
  destruct He as [-> | He]; [discriminate Hr|].
  rewrite (part_000_as_app_js e body w He) in Hr. unfold bind in Hr.
  destruct (app_js cfg e body w) as [[r|m] w1] eqn:Ea; [|discriminate Hr].
  assert (Hsame : resolve_media e r w1 = (Val r, w1) ->
                  success_false_has_error b = true \/ from_upstream cfg w b).
  { intros E. rewrite E in Hr. injection Hr as -> ->.
    apply app_js_envelopes with (1 := Ea). }
  destruct e; try (apply Hsame; reflexivity).
  destruct r as [st result| | |]; try (apply Hsame; reflexivity).
  cbn [resolve_media] in Hr, Hsame.
  destruct (st =? 200); [|apply Hsame; reflexivity].
  destruct (getProp result "success") as [success|] eqn:Es; [|apply Hsame; reflexivity].
  destruct (truthy_opt success) eqn:Et; [|apply Hsame; reflexivity].
  destruct (getProp result "data") as [[d|]|]; try (apply Hsame; reflexivity).
  destruct (truthy d); [|apply Hsame; reflexivity].
  unfold bind, ret in Hr.
  destruct (process_total d w1) as (d' & w2 & E). rewrite E in Hr.
  injection Hr as _ <- _.
  left. apply resolved_data_keeps_success with (1 := Es) (2 := Et).
Qed.

(** C5 (as amended). Every JSON reply of the two variants, on every route,
    either pairs [success: false] with an [error], or carries the body the
    upstream sent, as it came or with its media resolved; every envelope the
    router builds itself is of the first kind. *)
Theorem failure_envelopes_carry_error
    (e : endpoint) (body : option json) (w w' : World) (status : Z) (b : json) :
  app_js cfg e body w = (Val (Json status b), w') \/
  part_000 cfg e body w = (Val (Json status b), w') ->
  success_false_has_error b = true \/ from_upstream cfg w b.
Proof.
  intros [Hr | Hr].
  - apply app_js_envelopes with (1 := Hr).
  - apply part_000_envelopes with (1 := Hr).
Qed.

(** C6 (as amended). On every route but [/upload-image], which only
    [src/app.js] registers, the reply of [src/unnamed/part_000] is the reply
    of [src/app.js] followed by the media-resolution step: the same status
    and the same body, but for the resolved [data] of a successful
    [/api/:action]. *)
Theorem variants_agree_but_for_media
    (e : endpoint) (body : option json) (w : World) :
  e <> PostUploadImage ->
  part_000 cfg e body w = (r <- app_js cfg e body ;; resolve_media e r) w.
Proof. apply part_000_as_app_js. Qed.

(** ** More of [/login] *)

(** X6. [/login] with [mobile] or [password] missing or falsy is refused
    with 400 before anything else happens: no request is made, nothing is
    logged. *)
Theorem login_requires_credentials
    (body : option json) (w : World) (mobile password : option json) :
  destructure body "mobile" = Val mobile ->
  destructure body "password" = Val password ->
  truthy_opt mobile = false \/ truthy_opt password = false ->
  app_js cfg PostLogin body w =
    (Val (Json 400 (JObj [("success", JBool false);
                          ("error", JStr "Mobile and password required")])), w) /\
  part_000 cfg PostLogin body w =
    (Val (Json 400 (JObj [("success", JBool false);
                          ("error", JStr "Mobile and password required")])), w).
Proof.
  intros Em Ep Hf.
  assert (E : negb (truthy_opt mobile) || negb (truthy_opt password) = true).
  { destruct Hf as [-> | ->]; [reflexivity | apply orb_true_r]. }
  split; cbn [app_js part_000]; unfold post_login; run; rewrite Em, Ep, E;
    reflexivity.
Qed.

(** X7. [/login] forwards the JSON body of a successful upstream answer
    with status 200 as it is, whatever it holds: the login request is the
    only request made, no media is resolved, nothing is logged. *)
Theorem login_forwards_verbatim
    (body : option json) (w : World) (mobile password : json)
    (resp : response) (e' : Ext) (bytes : list byte) (result : json) :
  destructure body "mobile" = Val (Some mobile) ->
  destructure body "password" = Val (Some password) ->
  truthy mobile = true ->
  truthy password = true ->
  let req := gas_request cfg (JObj [("action", JStr "login");
                                    ("mobile", mobile);
                                    ("password", password)]) in
  net_fetch req (ext w) = (Val resp, e') ->
  resp_ok resp = true ->
  resp_body resp = Val bytes ->
  JSON_parse (Buffer_toString bytes) = Some result ->
  part_000 cfg PostLogin body w =
    (Val (Json 200 result), mkWorld _ e' (sent w ++ [req]) (console w)) /\
  app_js cfg PostLogin body w =
    (Val (Json 200 result), mkWorld _ e' (sent w ++ [req]) (console w)).
Proof.
  intros Em Ep Tm Tp req Ef Eo Eb Ej.
  split; cbn [app_js part_000]; unfold post_login; run; rewrite Em, Ep;
    cbn [truthy_opt literal]; rewrite Tm, Tp; cbn [negb orb];
    fold req; rewrite Ef, Eb; cbn; rewrite Ej, Eo; reflexivity.
Qed.

(** X8. When the upstream answers the login request with a body that is
    not JSON, the reply is 500 with the upstream status in the error, and a
    snippet of the body text is logged: its first 500 characters (code
    units), the whole text when it has no more. *)
Theorem login_non_json_is_500
    (body : option json) (w : World) (mobile password : json)
    (resp : response) (e' : Ext) (bytes : list byte) :
  destructure body "mobile" = Val (Some mobile) ->
  destructure body "password" = Val (Some password) ->
  truthy mobile = true ->
  truthy password = true ->
  let req := gas_request cfg (JObj [("action", JStr "login");
                                    ("mobile", mobile);
                                    ("password", password)]) in
  net_fetch req (ext w) = (Val resp, e') ->
  resp_body resp = Val bytes ->
  JSON_parse (Buffer_toString bytes) = None ->
  exists snippet,
    app_js cfg PostLogin body w =
      (Val (Json 500
              (JObj [("success", JBool false);
                     ("error", JStr ("GAS returned non-JSON response. Status: "
                                     ++ string_of_Z (resp_status resp)))])),
       mkWorld _ e' (sent w ++ [req])
         (console w ++ [Error [LStr "Failed to parse GAS response for login:";
                               LStr snippet]])) /\
    units snippet = firstn 500 (units (Buffer_toString bytes)) /\
    (List.length (units snippet) <= 500)%nat /\
    ((List.length (units (Buffer_toString bytes)) <= 500)%nat ->
     snippet = Buffer_toString bytes).
Proof.
  intros Em Ep Tm Tp req Ef Eb Ej. exists (substring_to 500 (Buffer_toString bytes)).
  split; [|apply snippet_is_the_start].
  cbn [app_js]. unfold post_login. run. rewrite Em, Ep.
  cbn [truthy_opt literal]. rewrite Tm, Tp. cbn [negb orb].
  fold req. rewrite Ef, Eb. cbn -[substring_to]. rewrite Ej. reflexivity.
Qed.

(** ** More of [/api/:action] *)

Lemma not_ok_status (r : response) :
  resp_ok r = false ->
  ~ (200 <= status_or (resp_status r) 502 < 300).
Proof.
  unfold resp_ok, status_or. intros Hr.
  destruct (resp_status r =? 0) eqn:E0; [lia|].
  apply andb_false_iff in Hr. destruct Hr as [Hr | Hr].
  - apply Z.leb_gt in Hr. lia.
  - apply Z.ltb_ge in Hr. lia.
Qed.

(** X9. When the upstream answers [/api/:action] with JSON under a status
    outside the success range, both variants reply with that status (502
    were it 0), never with a success status, and with the upstream body when
    it is truthy, an envelope naming the action and the status otherwise;
    no media is resolved. *)
Theorem upstream_failure_is_propagated
    (action : string) (body : option json) (w : World)
    (resp : response) (e' : Ext) (bytes : list byte) (result : json) :
  action <> "" ->
  net_fetch (api_request cfg action body) (ext w) = (Val resp, e') ->
  resp_ok resp = false ->
  resp_body resp = Val bytes ->
  JSON_parse (Buffer_toString bytes) = Some result ->
  let status := if resp_status resp =? 0 then 502 else resp_status resp in
  let b := if truthy result then result
           else JObj [("success", JBool false);
                      ("error", JStr ("Upstream GAS error for " ++ action ++ ": "
                                      ++ string_of_Z (resp_status resp)))] in
  fst (part_000 cfg (PostApi action) body w) = Val (Json status b) /\
  fst (app_js cfg (PostApi action) body w) = Val (Json status b) /\
  sent (snd (part_000 cfg (PostApi action) body w))
    = (sent w ++ [api_request cfg action body])%list /\
  ~ (200 <= status < 300).
Proof.
  intros Ha Ef Eo Eb Ej status b.
  split; [|split; [|split]]; [| | |apply (not_ok_status _ Eo)];
    cbn [part_000 app_js]; unfold post_api; rewrite (eqb_empty_false _ Ha);
    run; rewrite Ef, Eb; cbn; rewrite Ej, Eo; reflexivity.
Qed.

(** X10. When the upstream cannot be reached, or its body cannot be read,
    both variants reply 500 with the error of the proxy for that action and
    the message of the failure as [details]. *)
Theorem transport_failure_is_500
    (action : string) (body : option json) (w : World) (message : string) :
  action <> "" ->
  (exists e', net_fetch (api_request cfg action body) (ext w) = (Throw message, e')) \/
  (exists resp e', net_fetch (api_request cfg action body) (ext w) = (Val resp, e')
                   /\ resp_body resp = Throw message) ->
  let r := Json 500
             (JObj [("success", JBool false);
                    ("error", JStr ("Proxy server error during action: "
                                    ++ action ++ "."));
                    ("details", JStr message)]) in
  fst (part_000 cfg (PostApi action) body w) = Val r /\
  fst (app_js cfg (PostApi action) body w) = Val r.
Proof.
  intros Ha Hf r.
  split; cbn [part_000 app_js]; unfold post_api; rewrite (eqb_empty_false _ Ha);
    run; destruct Hf as [(e' & Ef) | (resp & e' & Ef & Eb)];
    rewrite Ef; try rewrite Eb; reflexivity.
Qed.

(** X11. A success status with the JSON body [null] is not forwarded by
    [/api/:action]: reading [result.success] throws, and both variants reply
    500 with the error of the proxy. *)
Theorem null_result_is_500
    (action : string) (body : option json) (w : World)
    (resp : response) (e' : Ext) (bytes : list byte) :
  action <> "" ->
  net_fetch (api_request cfg action body) (ext w) = (Val resp, e') ->
  resp_ok resp = true ->
  resp_body resp = Val bytes ->
  JSON_parse (Buffer_toString bytes) = Some JNull ->
  exists details,
    fst (part_000 cfg (PostApi action) body w) =
      Val (Json 500 (JObj [("success", JBool false);
                           ("error", JStr ("Proxy server error during action: "
                                           ++ action ++ "."));
                           ("details", JStr details)])) /\
    fst (app_js cfg (PostApi action) body w) =
      Val (Json 500 (JObj [("success", JBool false);
                           ("error", JStr ("Proxy server error during action: "
                                           ++ action ++ "."));
                           ("details", JStr details)])).
Proof.
  intros Ha Ef Eo Eb Ej. eexists.
  split; cbn [part_000 app_js];
    unfold post_api, media_step_part_000, media_step_app_js;
    rewrite (eqb_empty_false _ Ha);
    run; rewrite Ef, Eb; cbn; rewrite Ej, Eo; reflexivity.
Qed.

Lemma app_js_api_replies (action : string) (body : option json) (w : World) :
  exists status b w',
    post_api cfg media_step_app_js action body w = (Val (Json status b), w').
Proof.
  unfold post_api, media_step_app_js.
  destruct (action =? "")%string; [do 3 eexists; reflexivity|].
  run. destruct (net_fetch (api_request cfg action body) (ext w)) as [[resp|m] e1];
    cbn; [|do 3 eexists; reflexivity].
  destruct (resp_body resp) as [bs|m]; cbn; [|do 3 eexists; reflexivity].
  destruct (JSON_parse (Buffer_toString bs)) as [result|]; cbn;
    [|do 3 eexists; reflexivity].
  destruct (resp_ok resp); cbn; [|do 3 eexists; reflexivity].
  destruct (getProp result "success") as [success|m]; cbn;
    [|do 3 eexists; reflexivity].
  destruct (truthy_opt success); cbn; [|do 3 eexists; reflexivity].
  destruct (getProp result "data") as [data|m]; cbn; [|do 3 eexists; reflexivity].
  destruct (truthy_opt data); do 3 eexists; reflexivity.
Qed.

Lemma resolve_media_replies (e : endpoint) (status : Z) (b : json) (w : World) :
  exists status' b' w',
    resolve_media e (Json status b) w = (Val (Json status' b'), w').
Proof.
  destruct e; try (do 3 eexists; reflexivity).
  cbn [resolve_media].
  destruct (status =? 200); [|do 3 eexists; reflexivity].
  destruct (getProp b "success") as [success|]; [|do 3 eexists; reflexivity].
  destruct (truthy_opt success); [|do 3 eexists; reflexivity].
  destruct (getProp b "data") as [[d|]|]; try (do 3 eexists; reflexivity).
  destruct (truthy d); [|do 3 eexists; reflexivity].
  unfold bind, ret. destruct (process_total d w) as (d' & w2 & E). rewrite E.
  do 3 eexists; reflexivity.
Qed.

(** X12. No exception escapes the [/api/:action] handler, in either
    variant: a run in which the awaited fetches and body reads settle ends
    in a JSON reply, never in a rejection, whatever the upstream, its body
    or an image host does. *)
Theorem api_never_throws
    (action : string) (body : option json) (w : World)
    (r : outcome reply) (w' : World) :
  app_js cfg (PostApi action) body w = (r, w') \/
  part_000 cfg (PostApi action) body w = (r, w') ->
  exists status b, r = Val (Json status b).
Proof.
  intros [E | E].
  - destruct (app_js_api_replies action body w) as (st & b & w1 & E1).
    cbn [app_js] in E. rewrite E1 in E. injection E as <- _. exists st, b. reflexivity.
  - rewrite part_000_as_app_js in E by discriminate. unfold bind in E.
    cbn [app_js] in E.
    destruct (app_js_api_replies action body w) as (st & b & w1 & E1).
    rewrite E1 in E.
    destruct (resolve_media_replies (PostApi action) st b w1) as (st' & b' & w2 & E2).
    rewrite E2 in E. injection E as <- _. exists st', b'. reflexivity.
Qed.

Lemma app_js_api_200 (action : string) (body : option json)
    (w w' : World) (b : json) :
  post_api cfg media_step_app_js action body w = (Val (Json 200 b), w') ->
  exists resp e' bytes,
    net_fetch (api_request cfg action body) (ext w) = (Val resp, e') /\
    resp_ok resp = true /\
    resp_body resp = Val bytes /\
    JSON_parse (Buffer_toString bytes) = Some b.
Proof.
  unfold post_api, media_step_app_js.
  destruct (action =? "")%string; [discriminate|].
  run. destruct (net_fetch (api_request cfg action body) (ext w)) as [[resp|m] e1];
    cbn; [|discriminate].
  destruct (resp_body resp) as [bs|m] eqn:Eb; cbn; [|discriminate].
  destruct (JSON_parse (Buffer_toString bs)) as [result|] eqn:Ej; cbn;
    [|discriminate].
  destruct (resp_ok resp) eqn:Eo; cbn.
  2:{ intros Hr. injection Hr as Hs _ _.
      apply not_ok_not_200 in Eo. apply Z.eqb_neq in Eo. contradiction. }
  intros Hr.
  assert (Hb : b = result).
  { destruct (getProp result "success") as [success|m]; cbn in Hr;
      [|discriminate Hr].
    destruct (truthy_opt success); cbn in Hr; [|congruence].
    destruct (getProp result "data") as [data|m]; cbn in Hr; [|discriminate Hr].
    destruct (truthy_opt data); cbn in Hr; congruence. }
  subst b. exists resp, e1, bs. auto.
Qed.

Lemma set_prop_data_frame (result d d' : json) :
  getProp result "data" = Val (Some d) ->
  only_photos_differ d d' ->
  only_photos_differ result (set_prop result "data" d').
Proof.
  intros Ed F. destruct result; try discriminate Ed.
  cbn in Ed. injection Ed as Ed. cbn [set_prop]. apply opd_obj.
  induction l as [|[k v] r IH]; [constructor|].
  cbn [assoc assoc_set] in *. destruct ("data" =? k)%string eqn:Ek.
  - injection Ed as ->. constructor.
    + cbn. split; [reflexivity | left; exact F].
    + clear. induction r as [|kv r IH]; constructor; [|exact IH].
      split; [reflexivity | left; apply opd_same].
  - constructor; [|apply IH; exact Ed].
    split; [reflexivity | left; apply opd_same].
Qed.

(** X13. A 200 from [/api/:action] is never made up by the proxy: in both
    variants it means that the upstream answered with a success status and
    a JSON body, and it carries that body, as it came or with its media
    resolved. *)
Theorem api_200_is_an_upstream_success
    (action : string) (body : option json) (w w' : World) (b : json) :
  app_js cfg (PostApi action) body w = (Val (Json 200 b), w') \/
  part_000 cfg (PostApi action) body w = (Val (Json 200 b), w') ->
  exists resp e' bytes result,
    net_fetch (api_request cfg action body) (ext w) = (Val resp, e') /\
    resp_ok resp = true /\
    resp_body resp = Val bytes /\
    JSON_parse (Buffer_toString bytes) = Some result /\
    only_photos_differ result b.
Proof.
  intros [Hr | Hr].
  - destruct (app_js_api_200 _ _ _ _ _ Hr) as (resp & e' & bs & Ef & Eo & Eb & Ej).
    exists resp, e', bs, b. repeat split; try assumption. apply opd_same.
  - rewrite part_000_as_app_js in Hr by discriminate. unfold bind in Hr.
    cbn [app_js] in Hr.
    destruct (app_js_api_replies action body w) as (st & b0 & w1 & E).
    rewrite E in Hr. cbn [resolve_media] in Hr.
    destruct (st =? 200) eqn:Est.
    2:{ injection Hr as Hs _ _. rewrite Hs in Est. discriminate Est. }
    apply Z.eqb_eq in Est. subst st.
    destruct (app_js_api_200 _ _ _ _ _ E) as (resp & e' & bs & Ef & Eo & Eb & Ej).
    exists resp, e', bs, b0. repeat split; try assumption.
    destruct (getProp b0 "success") as [success|];
      [|injection Hr as <- _; apply opd_same].
    destruct (truthy_opt success); [|injection Hr as <- _; apply opd_same].
    destruct (getProp b0 "data") as [[d|]|] eqn:Ed;
      try (injection Hr as <- _; apply opd_same).
    destruct (truthy d); [|injection Hr as <- _; apply opd_same].
    unfold bind, ret in Hr.
    destruct (process_frame d w1) as (d' & w2 & Ep & F). rewrite Ep in Hr.
    injection Hr as <- _. apply set_prop_data_frame with (1 := Ed) (2 := F).
Qed.

(** X14. In [src/app.js] the handler of [/api/:action] makes the upstream
    request and no other, on every path: no image is ever fetched. *)
Theorem app_js_api_makes_one_request
    (action : string) (body : option json) (w w' : World) (r : outcome reply) :
  action <> "" ->
  app_js cfg (PostApi action) body w = (r, w') ->
  sent w' = (sent w ++ [api_request cfg action body])%list.
Proof.
  intros Ha. cbn [app_js]. unfold post_api, media_step_app_js.
  rewrite (eqb_empty_false _ Ha). run.
  destruct (net_fetch (api_request cfg action body) (ext w)) as [[resp|m] e1];
    cbn; [|intros Hr; injection Hr as _ <-; reflexivity].
  destruct (resp_body resp) as [bs|m]; cbn;
    [|intros Hr; injection Hr as _ <-; reflexivity].
  destruct (JSON_parse (Buffer_toString bs)) as [result|]; cbn;
    [|intros Hr; injection Hr as _ <-; reflexivity].
  destruct (resp_ok resp); cbn; [|intros Hr; injection Hr as _ <-; reflexivity].
  destruct (getProp result "success") as [success|m]; cbn;
    [|intros Hr; injection Hr as _ <-; reflexivity].
  destruct (truthy_opt success); cbn;
    [|intros Hr; injection Hr as _ <-; reflexivity].
  destruct (getProp result "data") as [data|m]; cbn;
    [|intros Hr; injection Hr as _ <-; reflexivity].
  destruct (truthy_opt data); intros Hr; injection Hr as _ <-; reflexivity.
Qed.

(** X15. In [src/unnamed/part_000], after a successful upstream answer
    whose [success] and [data] are truthy, the requests made are the
    upstream request followed by one GET for each [PhotoURL] of [data] that
    holds an [http(s)://] string, in traversal order. *)
Theorem part_000_api_requests
    (action : string) (body : option json) (w : World)
    (resp : response) (e' : Ext) (bytes : list byte)
    (result d : json) (success : option json) :
  action <> "" ->
  net_fetch (api_request cfg action body) (ext w) = (Val resp, e') ->
  resp_ok resp = true ->
  resp_body resp = Val bytes ->
  JSON_parse (Buffer_toString bytes) = Some result ->
  getProp result "success" = Val success ->
  truthy_opt success = true ->
  getProp result "data" = Val (Some d) ->
  truthy d = true ->
  sent (snd (part_000 cfg (PostApi action) body w)) =
    (sent w ++ api_request cfg action body :: map image_request (photo_urls d))%list.
Proof.
  intros Ha Ef Eo Eb Ep Es Ht Ed Hd.
  set (w1 := mkWorld _ e' (sent w ++ [api_request cfg action body]) (console w)).
  destruct (process_fetched d w1) as (d' & w' & E & [Fs _]).
  cbn [part_000]. unfold post_api, media_step_part_000.
  rewrite (eqb_empty_false _ Ha).
  run. rewrite Ef, Eb. cbn. rewrite Ep, Eo. cbn. rewrite Es, Ht, Ed, Hd.
  fold w1. rewrite E. cbn [snd]. rewrite Fs. unfold w1. cbn [sent].
  rewrite <- app_assoc. reflexivity.
Qed.

(** ** More of [/upload-image] *)

(** X16. With the configuration present, [/upload-image] without [image]
    or without [fileName] (or with a falsy one) is refused with 400; no
    request is made, nothing is logged. *)
Theorem upload_requires_fields
    (body : option json) (w : World) (image fileName : option json) :
  env_set (GITHUB_API_TOKEN cfg) = true ->
  env_set (GITHUB_OWNER cfg) = true ->
  env_set (GITHUB_REPO cfg) = true ->
  destructure body "image" = Val image ->
  destructure body "fileName" = Val fileName ->
  truthy_opt image = false \/ truthy_opt fileName = false ->
  app_js cfg PostUploadImage body w =
    (Val (Json 400 (JObj [("success", JBool false);
                          ("error", JStr "Image data and file name are required.")])),
     w).
Proof.
  intros Ht Ho Hr Ei En Hf.
  assert (E : negb (truthy_opt image) || negb (truthy_opt fileName) = true).
  { destruct Hf as [-> | ->]; [reflexivity | apply orb_true_r]. }
  cbn [app_js]. unfold post_upload_image. rewrite Ht, Ho, Hr. cbn [negb orb].
  run. rewrite Ei, En, E. reflexivity.
Qed.

(** X17. A truthy [fileName] that is not a string (a number, [true], an
    array, an object) makes the handler throw before its [try] block:
    [fileName.replace] is not a function. No reply is sent by the handler
    and no request is made. *)
Theorem upload_name_must_be_a_string
    (body : option json) (w : World) (image : option json) (fileName : json) :
  env_set (GITHUB_API_TOKEN cfg) = true ->
  env_set (GITHUB_OWNER cfg) = true ->
  env_set (GITHUB_REPO cfg) = true ->
  destructure body "image" = Val image ->
  truthy_opt image = true ->
  destructure body "fileName" = Val (Some fileName) ->
  truthy fileName = true ->
  (forall s, fileName <> JStr s) ->
  exists message, app_js cfg PostUploadImage body w = (Throw message, w).
Proof.
  intros Ht Ho Hr Ei Hi En Hn Hs.
  cbn [app_js]. unfold post_upload_image, new_Date_getTime.
  rewrite Ht, Ho, Hr. cbn [negb orb].
  run. rewrite Ei, En, Hi. cbn [truthy_opt]. rewrite Hn. cbn [negb orb].
  destruct fileName; try (eexists; reflexivity).
  elim (Hs s). reflexivity.
Qed.

(** X18. When the asset host answers the upload with a success status and
    a JSON body whose [content.download_url] is truthy, the reply is 200
    with [success: true] and that URL; the upload is the only request made
    and nothing is logged. *)
Theorem upload_success_returns_url
    (body : option json) (w : World) (image : option json) (name : string)
    (resp : response) (e' : Ext) (bytes : list byte) (result url : json) :
  env_set (GITHUB_API_TOKEN cfg) = true ->
  env_set (GITHUB_OWNER cfg) = true ->
  env_set (GITHUB_REPO cfg) = true ->
  destructure body "image" = Val image ->
  truthy_opt image = true ->
  destructure body "fileName" = Val (Some (JStr name)) ->
  name <> "" ->
  let req := upload_request cfg
               (string_of_Z (Date_getTime (ext w)) ++ "-" ++ replace_unsafe name)
               image in
  net_fetch req (ext w) = (Val resp, e') ->
  resp_ok resp = true ->
  resp_body resp = Val bytes ->
  JSON_parse (Buffer_toString bytes) = Some result ->
  content_download_url result = Val (Some url) ->
  truthy url = true ->
  app_js cfg PostUploadImage body w =
    (Val (Json 200 (JObj [("success", JBool true); ("url", url)])),
     mkWorld _ e' (sent w ++ [req]) (console w)).
Proof.
  intros Ht Ho Hr Ei Hi En Hn req Ef Eo Eb Ej Eu Hu.
  cbn [app_js]. unfold post_upload_image, new_Date_getTime, json_of.
  rewrite Ht, Ho, Hr. cbn [negb orb].
  run. rewrite Ei, En, Hi.
  cbn [truthy_opt truthy negb orb call_replace].
  rewrite (eqb_empty_false _ Hn). cbn [negb].
  unfold sanitizedFileName. fold req. rewrite Ef, Eb. cbn. rewrite Ej. cbn.
  rewrite Eo. cbn. rewrite Eu. cbn. rewrite Hu. reflexivity.
Qed.

(** X19. When the asset host refuses the upload (a status outside the
    success range, or no download URL in its JSON body), the reply is made
    of its [message], or of [Failed to upload file.] when it has none or a
    falsy one: where that value converts to a string, the reply carries the
    host's status (502 were it 0) and [GitHub API Error: ] followed by the
    string; where the conversion throws, the handler's [catch] replies 500
    with the thrown message as [details]. A non-empty string converts to
    itself; an object converts to [[object Object]], unless it has a
    [toString] member of its own, and then the conversion throws. *)
Theorem upload_failure_is_reported
    (body : option json) (w : World) (image : option json) (name : string)
    (resp : response) (e' : Ext) (bytes : list byte)
    (result : json) (message : option json) :
  env_set (GITHUB_API_TOKEN cfg) = true ->
  env_set (GITHUB_OWNER cfg) = true ->
  env_set (GITHUB_REPO cfg) = true ->
  destructure body "image" = Val image ->
  truthy_opt image = true ->
  destructure body "fileName" = Val (Some (JStr name)) ->
  name <> "" ->
  let req := upload_request cfg
               (string_of_Z (Date_getTime (ext w)) ++ "-" ++ replace_unsafe name)
               image in
  net_fetch req (ext w) = (Val resp, e') ->
  resp_body resp = Val bytes ->
  JSON_parse (Buffer_toString bytes) = Some result ->
  resp_ok resp = false \/
  (exists url, content_download_url result = Val url /\ truthy_opt url = false) ->
  getProp result "message" = Val message ->
  let shown := js_toString
                 match message with
                 | Some m => if truthy m then m else JStr "Failed to upload file."
                 | None => JStr "Failed to upload file."
                 end in
  fst (app_js cfg PostUploadImage body w) =
    Val match shown with
        | Val text =>
            Json (if resp_status resp =? 0 then 502 else resp_status resp)
              (JObj [("success", JBool false);
                     ("error", JStr ("GitHub API Error: " ++ text))])
        | Throw e =>
            Json 500
              (JObj [("success", JBool false);
                     ("error", JStr "Server error during image upload.");
                     ("details", JStr e)])
        end /\
  (truthy_opt message = false -> shown = Val "Failed to upload file.") /\
  (forall s, message = Some (JStr s) -> s <> "" -> shown = Val s) /\
  (forall fs, message = Some (JObj fs) ->
     shown = match assoc "toString" fs with
             | Some _ => Throw "Cannot convert object to primitive value"
             | None => Val "[object Object]"
             end).
Proof.
  intros Ht Ho Hr Ei Hi En Hn req Ef Eb Ej Hf Em shown.
  split; [|split; [|split]].
  - cbn [app_js]. unfold post_upload_image, new_Date_getTime, json_of.
    rewrite Ht, Ho, Hr. cbn [negb orb].
    run. rewrite Ei, En, Hi.
    cbn [truthy_opt truthy negb orb call_replace].
    rewrite (eqb_empty_false _ Hn). cbn [negb].
    unfold sanitizedFileName. fold req. rewrite Ef, Eb. cbn. rewrite Ej. cbn.
    assert (Et : js_toString (value_or message (JStr "Failed to upload file."))
                 = shown).
    { unfold shown, value_or. destruct message as [m|]; [|reflexivity].
      destruct (truthy m); reflexivity. }
    clearbody shown.
    destruct Hf as [Eo | (url & Eu & Hu)].
    + rewrite Eo. cbn. rewrite Em. cbn. unfold envelope_error, status_or.
      rewrite Et. destruct shown; reflexivity.
    + destruct (resp_ok resp); cbn.
      * rewrite Eu. cbn. rewrite Hu. cbn. rewrite Em. cbn.
        unfold envelope_error, status_or. rewrite Et. destruct shown; reflexivity.
      * rewrite Em. cbn. unfold envelope_error, status_or. rewrite Et.
        destruct shown; reflexivity.
  - intros Hm. unfold shown. destruct message as [m|]; [|reflexivity].
    cbn [truthy_opt] in Hm. rewrite Hm. reflexivity.
  - intros s0 -> Hs. unfold shown. cbn [truthy].
    rewrite (eqb_empty_false _ Hs). reflexivity.
  - intros fs ->. reflexivity.
Qed.

(** ** The static routes *)

(** X20. When a static file cannot be sent and the headers are not out
    yet, [/] replies 500 whatever the error, while [/tools.json] and
    [/generator.json] reply with the status of the error, or 500 when it has
    none or 0; each logs one line and makes no request. *)
Theorem static_failure_status
    (w : World) (name message : string) (err_status : option Z) :
  fs_sendFile (dirname cfg ++ "/" ++ name) (ext w)
    = SendFailed message err_status false ->
  let status := match err_status with
                | Some n => if n =? 0 then 500 else n
                | None => 500
                end in
  (name = "index.html" ->
   fst (app_js cfg GetIndex None w) = Val (Text 500 "Error loading application shell.") /\
   sent (snd (app_js cfg GetIndex None w)) = sent w) /\
  (name = "tools.json" ->
   fst (app_js cfg GetTools None w)
     = Val (Text status "Error loading tools configuration.") /\
   sent (snd (app_js cfg GetTools None w)) = sent w) /\
  (name = "generator.json" ->
   fst (app_js cfg GetGenerator None w)
     = Val (Text status "Error loading generator configuration.") /\
   sent (snd (app_js cfg GetGenerator None w)) = sent w).
Proof.
  intros Ef status.
  repeat split; intros; subst name;
    cbn [app_js]; unfold get_index, get_tools, get_generator, send_static;
    rewrite Ef; reflexivity.
Qed.

(** ** Handlers that let no exception escape *)

Lemma login_replies
    (body : option json) (w : World) (mobile password : option json) :
  destructure body "mobile" = Val mobile ->
  destructure body "password" = Val password ->
  exists status b w', post_login cfg body w = (Val (Json status b), w').
Proof.
  intros Em Ep. unfold post_login. run. rewrite Em, Ep.
  destruct (negb (truthy_opt mobile) || negb (truthy_opt password));
    [do 3 eexists; reflexivity|].
  destruct (net_fetch _ (ext w)) as [[resp|m] e1]; cbn;
    [|do 3 eexists; reflexivity].
  destruct (resp_body resp) as [bs|m]; cbn; [|do 3 eexists; reflexivity].
  destruct (JSON_parse (Buffer_toString bs)) as [result|]; cbn;
    [|do 3 eexists; reflexivity].
  destruct (resp_ok resp); cbn; do 3 eexists; reflexivity.
Qed.

Lemma upload_replies
    (body : option json) (w : World) (image fileName : option json) :
  destructure body "image" = Val image ->
  destructure body "fileName" = Val fileName ->
  truthy_opt fileName = false \/ (exists s, fileName = Some (JStr s)) ->
  exists status b w', post_upload_image cfg body w = (Val (Json status b), w').
Proof.
  intros Ei En Hn. unfold post_upload_image.
  destruct (negb (env_set (GITHUB_API_TOKEN cfg)) || negb (env_set (GITHUB_OWNER cfg))
            || negb (env_set (GITHUB_REPO cfg))); [do 3 eexists; reflexivity|].
  unfold new_Date_getTime, json_of. run. rewrite Ei, En.
  destruct (negb (truthy_opt image) || negb (truthy_opt fileName)) eqn:Eg;
    [do 3 eexists; reflexivity|].
  destruct Hn as [Hf | (s0 & ->)].
  { rewrite Hf in Eg. rewrite orb_true_r in Eg. discriminate Eg. }
  cbn [call_replace].
  destruct (net_fetch _ (ext w)) as [[resp|m] e1]; cbn;
    [|do 3 eexists; reflexivity].
  destruct (resp_body resp) as [bs|m]; cbn; [|do 3 eexists; reflexivity].
  destruct (JSON_parse (Buffer_toString bs)) as [result|]; cbn;
    [|do 3 eexists; reflexivity].
  destruct (resp_ok resp); cbn.
  - destruct (content_download_url result) as [[u|]|m]; cbn;
      [destruct (truthy u); cbn| |];
      try (do 3 eexists; reflexivity);
      (destruct (getProp result "message") as [msg|m']; cbn;
       [destruct (js_toString (value_or msg (JStr "Failed to upload file."))); cbn|]);
      do 3 eexists; reflexivity.
  - destruct (getProp result "message") as [msg|m']; cbn;
      [destruct (js_toString (value_or msg (JStr "Failed to upload file."))); cbn|];
      do 3 eexists; reflexivity.
Qed.

(** X22. Once [req.body] can be destructured (it is neither [undefined]
    nor [null]), no exception escapes the [/login] handler, in either
    variant: a run in which the awaited fetch and body read settle ends in a
    JSON reply, never in a rejection, whatever the upstream or its body
    does. *)
Theorem login_never_throws
    (body : option json) (w : World) (mobile password : option json)
    (r : outcome reply) (w' : World) :
  destructure body "mobile" = Val mobile ->
  destructure body "password" = Val password ->
  app_js cfg PostLogin body w = (r, w') \/ part_000 cfg PostLogin body w = (r, w') ->
  exists status b, r = Val (Json status b).
Proof.
  intros Em Ep E.
  destruct (login_replies body w mobile password Em Ep) as (st & b & w1 & E1).
  cbn [app_js part_000] in E. rewrite E1 in E.
  destruct E as [E | E]; injection E as <- _; exists st, b; reflexivity.
Qed.

(** X23. With a body whose [fileName] is missing, falsy or a string, no
    exception escapes the [/upload-image] handler: a run in which the
    awaited fetch and body read settle ends in a JSON reply, never in a
    rejection, whatever the asset host or its body does, and whatever its
    [message] converts to. *)
Theorem upload_never_throws
    (body : option json) (w : World) (image fileName : option json)
    (r : outcome reply) (w' : World) :
  destructure body "image" = Val image ->
  destructure body "fileName" = Val fileName ->
  truthy_opt fileName = false \/ (exists s, fileName = Some (JStr s)) ->
  app_js cfg PostUploadImage body w = (r, w') ->
  exists status b, r = Val (Json status b).
Proof.
  intros Ei En Hn E.
  destruct (upload_replies body w image fileName Ei En Hn) as (st & b & w1 & E1).
  cbn [app_js] in E. rewrite E1 in E. injection E as <- _.
  exists st, b. reflexivity.
Qed.

End RouterProperties.


(** * The model at work *)

Lemma demo_fetch_stable : fetch_is_stable.
Proof. intros r e e'. reflexivity. Qed.



(** C2, on a payload with one photo to convert. *)
Lemma resolve_changes_only_photos_witness :
  exists data' w',
    processImageUrlsToBase64 (JArr [demo_student "https://valid.img/x.png"]) demo_world
      = (Val data', w') /\
    only_photos_differ (JArr [demo_student "https://valid.img/x.png"]) data' /\
    (has_photo_key (JArr [demo_student "https://valid.img/x.png"]) = false ->
     data' = JArr [demo_student "https://valid.img/x.png"] /\ w' = demo_world).
Proof.
  exact (resolve_changes_only_photos
           (JArr [demo_student "https://valid.img/x.png"]) demo_world).
Defined.


(** C4: a second call on a converted payload changes nothing. *)
Lemma resolve_is_idempotent_witness :
  (exists data' w',
     processImageUrlsToBase64 (demo_student "data:image/png;base64,TWFu") demo_world
       = (Val data', w') /\
     lookup_path [Key "PhotoURL"] data' = Some (JStr "data:image/png;base64,TWFu")) /\
  processImageUrlsToBase64 (demo_student "") demo_world
    = (Val (demo_student ""), demo_world) /\
  exists w3,
    processImageUrlsToBase64 (demo_student "data:image/png;base64,TWFu") demo_world
      = (Val (demo_student "data:image/png;base64,TWFu"), w3).
Proof.
  destruct resolve_is_idempotent as (Hfield & Hwhole & Htwice).
  split; [|split].
  - apply (Hfield [] (demo_student "data:image/png;base64,TWFu") demo_world
             "data:image/png;base64,TWFu"); reflexivity.
  - apply (Hwhole (demo_student "") demo_world). reflexivity.
  - apply (Htwice demo_fetch_stable (demo_student "https://valid.img/x.png")
             (demo_student "data:image/png;base64,TWFu") demo_world
             (snd (processImageUrlsToBase64 (demo_student "https://valid.img/x.png")
                     demo_world))).
    reflexivity.
Defined.

(** C5 as the specification words it fails on a body the router forwards:
    the upstream answers 500 with [{"success": false}], and that is the
    reply. *)
Lemma forwarded_failure_has_no_error :
  fst (app_js demo_cfg (PostApi "bare") (Some (JObj [])) demo_world)
    = Val (Json 500 (JObj [("success", JBool false)])) /\
  ~ every_failure_has_error demo_cfg.
Proof.
  split; [reflexivity|]. intros Hc.
  specialize (Hc (PostApi "bare") (Some (JObj [])) demo_world
                (snd (app_js demo_cfg (PostApi "bare") (Some (JObj [])) demo_world))
                500 (JObj [("success", JBool false)]) (or_introl eq_refl)).
  discriminate Hc.
Qed.

(** C5, on that reply: it is the body the upstream sent. *)
Lemma failure_envelopes_carry_error_witness :
  success_false_has_error (JObj [("success", JBool false)]) = true \/
  from_upstream demo_cfg demo_world (JObj [("success", JBool false)]).
Proof.
  apply (failure_envelopes_carry_error demo_cfg (PostApi "bare") (Some (JObj []))
           demo_world
           (snd (app_js demo_cfg (PostApi "bare") (Some (JObj [])) demo_world))
           500 (JObj [("success", JBool false)])).
  left. reflexivity.
Defined.

(** C6 as the specification words it fails on [/upload-image]: one variant
    answers it, the other has no such route. *)
Lemma upload_route_is_in_one_variant_only :
  fst (app_js demo_cfg PostUploadImage None demo_world)
    = Val (Json 500 (envelope_error "GitHub integration is not configured on the server.")) /\
  fst (part_000 demo_cfg PostUploadImage None demo_world)
    = Val (Text 404 "Resource not found on proxy.") /\
  ~ variants_differ_in_media_only demo_cfg.
Proof.
  split; [reflexivity|]. split; [reflexivity|]. intros Hc.
  specialize (Hc PostUploadImage None demo_world). discriminate Hc.
Qed.

(** C6, on a request whose payload has a photo. *)
Lemma variants_agree_but_for_media_witness :
  part_000 demo_cfg (PostApi "photo") (Some (JObj [])) demo_world =
    (r <- app_js demo_cfg (PostApi "photo") (Some (JObj [])) ;;
     resolve_media (PostApi "photo") r) demo_world.
Proof.
  apply (variants_agree_but_for_media demo_cfg (PostApi "photo") (Some (JObj []))
           demo_world).
  discriminate.
Defined.

(** C7, on the example of the specification: 503 and [not json], which is
    logged whole. *)
Lemma non_json_upstream_is_500_witness :
  let r := Json 500
             (envelope_error
                "GAS returned non-JSON response for action broken. Status: 503") in
  let w' := mkWorld demo_host 1%nat [api_request demo_cfg "broken" None]
              [Error [LStr ("Failed to parse GAS response for action "
                            ++ dquote ++ "broken" ++ dquote ++ ":");
                      LStr "not json"]] in
  part_000 demo_cfg (PostApi "broken") None demo_world = (Val r, w') /\
  app_js demo_cfg (PostApi "broken") None demo_world = (Val r, w').
Proof.
  destruct (non_json_upstream_is_500 demo_cfg "broken" None demo_world
              (mkResponse 503 (Some "text/plain") (Val (list_byte_of_string "not json")))
              1%nat (list_byte_of_string "not json"))
    as (snippet & E1 & E2 & _ & _ & Es); try reflexivity; try discriminate.
  rewrite E1, E2, Es; [split; reflexivity|].
  apply Nat.leb_le. reflexivity.
Defined.

(** C8, whatever the body. *)
Lemma upload_without_configuration_is_500_witness :
  app_js demo_cfg PostUploadImage (Some demo_upload) demo_world =
    (Val (Json 500
            (envelope_error "GitHub integration is not configured on the server.")),
     demo_world).
Proof.
  apply (upload_without_configuration_is_500 demo_cfg (Some demo_upload) demo_world).
  left. reflexivity.
Defined.

(** C9: [my photo(1).png] is stored as [my_photo_1_.png]. *)
Lemma upload_path_is_sanitized_witness :
  exists r w' req,
    app_js demo_cfg_github PostUploadImage (Some demo_upload) demo_world = (Val r, w') /\
    sent w' = [req] /\
    req_method req = PUT /\
    req_url req =
      "https://api.github.com/repos/edu/assets/contents/images/1700000000000-my_photo_1_.png".
Proof.
  apply (proj1 (upload_path_is_sanitized demo_cfg_github (Some demo_upload) demo_world
                  (Some (JStr "aGk=")) "my photo(1).png"
                  eq_refl eq_refl eq_refl eq_refl eq_refl eq_refl
                  ltac:(discriminate))).
Defined.

(** C10: a [data] of [0] is forwarded without a look at it. *)
Lemma falsy_data_bypasses_media_witness :
  part_000 demo_cfg (PostApi "zero") (Some (JObj [])) demo_world =
    (Val (Json 200 (JObj [("success", JBool true); ("data", JNum 0%float)])),
     mkWorld _ 1%nat [api_request demo_cfg "zero" (Some (JObj []))] []).
Proof.
  apply (falsy_data_bypasses_media demo_cfg "zero" (Some (JObj [])) demo_world
           (mkResponse 200 None (Val (list_byte_of_string "zero result")))
           1%nat (list_byte_of_string "zero result")
           (JObj [("success", JBool true); ("data", JNum 0%float)])
           (Some (JBool true)));
    try reflexivity; try discriminate.
  right. exists (Some (JNum 0%float)). split; reflexivity.
Defined.

(** Two examples of the specification: [/login] without a password is
    refused before the upstream is contacted, and a payload without photo
    goes through [/api/echo] unchanged. *)
Example login_without_password :
  part_000 demo_cfg PostLogin (Some (JObj [("mobile", JStr "9000000001")])) demo_world =
    (Val (Json 400 (envelope_error "Mobile and password required")), demo_world).
Proof. reflexivity. Qed.

Example api_echo :
  fst (part_000 demo_cfg (PostApi "echo") (Some (JObj [("foo", JStr "bar")])) demo_world) =
    Val (Json 200 (JObj [("success", JBool true); ("data", JObj [("foo", JStr "bar")])])).
Proof. reflexivity. Qed.

(** * More of the model at work *)

(** X1, on a class of four: three GETs, one line for the photo that is gone. *)
Lemma resolver_fetches_each_photo_once_witness :
  let class := JArr [demo_student "https://valid.img/x.png";
                     demo_student "data:image/png;base64,TWFu";
                     demo_student "http://img.test/missing";
                     JObj [("Links", JArr [JStr "http://img.test/down"])];
                     demo_student "http://img.test/untyped"] in
  let w' := snd (processImageUrlsToBase64 class demo_world) in
  sent w' = map image_request ["https://valid.img/x.png"; "http://img.test/missing";
                               "http://img.test/untyped"] /\
  exists lines, console w' = lines /\ (List.length lines <= 3)%nat.
Proof.
  intros class w'.
  exact (resolver_fetches_each_photo_once class
           (match fst (processImageUrlsToBase64 class demo_world) with
            | Val d => d
            | Throw _ => JNull
            end) demo_world w' eq_refl).
Defined.

(** X3, on a name that needs no replacement. *)
Lemma replace_unsafe_stable_witness : replace_unsafe "report-2024.v2.PNG" = "report-2024.v2.PNG".
Proof.
  apply (proj2 (replace_unsafe_stable "report-2024.v2.PNG")).
  repeat constructor.
Defined.

(** X6: a login without password. *)
Lemma login_requires_credentials_witness :
  app_js demo_cfg PostLogin (Some (JObj [("mobile", JStr "9000000001")])) demo_world =
    (Val (Json 400 (envelope_error "Mobile and password required")), demo_world).
Proof.
  apply (proj1 (login_requires_credentials demo_cfg
                  (Some (JObj [("mobile", JStr "9000000001")])) demo_world
                  (Some (JStr "9000000001")) None eq_refl eq_refl
                  (or_intror eq_refl))).
Defined.

(** X7: the photo of the account is not inlined by [/login]. *)
Lemma login_forwards_verbatim_witness :
  fst (part_000 demo_cfg PostLogin (Some (office_login "9000000001")) office_world) =
    Val (Json 200
           (JObj [("success", JBool true);
                  ("data", demo_student "https://valid.img/x.png")])).
Proof.
  rewrite (proj1 (@login_forwards_verbatim office_host demo_cfg
                    (Some (office_login "9000000001")) office_world
                    (JStr "9000000001") (JStr "secret")
                    (mkResponse 200 (Some "application/json")
                       (Val (list_byte_of_string "login ok")))
                    1%nat (list_byte_of_string "login ok")
                    (JObj [("success", JBool true);
                           ("data", demo_student "https://valid.img/x.png")])
                    eq_refl eq_refl eq_refl eq_refl eq_refl eq_refl eq_refl eq_refl)).
  reflexivity.
Defined.

(** X8: a sign-in page in place of JSON, logged whole. *)
Lemma login_non_json_is_500_witness :
  app_js demo_cfg PostLogin (Some (office_login "9000000002")) office_world =
    (Val (Json 500 (envelope_error "GAS returned non-JSON response. Status: 200")),
     @mkWorld office_host 1%nat
       [@gas_request office_host demo_cfg
          (JObj [("action", JStr "login"); ("mobile", JStr "9000000002");
                 ("password", JStr "secret")])]
       [Error [LStr "Failed to parse GAS response for login:";
               LStr "<html>Sign in</html>"]]).
Proof.
  destruct (@login_non_json_is_500 office_host demo_cfg
              (Some (office_login "9000000002")) office_world
              (JStr "9000000002") (JStr "secret")
              (mkResponse 200 (Some "text/html")
                 (Val (list_byte_of_string "<html>Sign in</html>")))
              1%nat (list_byte_of_string "<html>Sign in</html>")
              eq_refl eq_refl eq_refl eq_refl eq_refl eq_refl eq_refl)
    as (snippet & E & _ & _ & Es).
  rewrite E, Es; [reflexivity|].
  apply Nat.leb_le. reflexivity.
Defined.

(** X9: the upstream's own 500 and body. *)
Lemma upstream_failure_is_propagated_witness :
  fst (part_000 demo_cfg (PostApi "bare") None demo_world)
    = Val (Json 500 (JObj [("success", JBool false)])) /\
  fst (app_js demo_cfg (PostApi "bare") None demo_world)
    = Val (Json 500 (JObj [("success", JBool false)])) /\
  sent (snd (part_000 demo_cfg (PostApi "bare") None demo_world))
    = [api_request demo_cfg "bare" None] /\
  ~ (200 <= 500 < 300).
Proof.
  apply (upstream_failure_is_propagated demo_cfg "bare" None demo_world
           (mkResponse 500 None (Val (list_byte_of_string "bare failure")))
           1%nat (list_byte_of_string "bare failure")
           (JObj [("success", JBool false)]));
    try reflexivity; discriminate.
Defined.

(** X10: nobody answers. *)
Lemma transport_failure_is_500_witness :
  fst (part_000 demo_cfg (PostApi "nowhere") None demo_world)
    = Val (Json 500 (envelope_details "Proxy server error during action: nowhere."
                       "socket hang up")) /\
  fst (app_js demo_cfg (PostApi "nowhere") None demo_world)
    = Val (Json 500 (envelope_details "Proxy server error during action: nowhere."
                       "socket hang up")).
Proof.
  apply (transport_failure_is_500 demo_cfg "nowhere" None demo_world "socket hang up").
  - discriminate.
  - left. exists 1%nat. reflexivity.
Defined.

(** X11: [null] with status 200. *)
Lemma null_result_is_500_witness :
  exists details,
    fst (part_000 demo_cfg (PostApi "nothing") None office_world)
      = Val (Json 500 (envelope_details "Proxy server error during action: nothing."
                         details)) /\
    fst (app_js demo_cfg (PostApi "nothing") None office_world)
      = Val (Json 500 (envelope_details "Proxy server error during action: nothing."
                         details)).
Proof.
  apply (@null_result_is_500 office_host demo_cfg "nothing" None office_world
           (mkResponse 200 (Some "application/json") (Val (list_byte_of_string "null")))
           1%nat (list_byte_of_string "null"));
    try reflexivity; discriminate.
Defined.

(** X12: nobody answers, and the handler still replies. *)
Lemma api_never_throws_witness :
  let r := Val (Json 500 (envelope_details "Proxy server error during action: nowhere."
                            "socket hang up")) in
  let w' := mkWorld demo_host 1%nat [api_request demo_cfg "nowhere" None]
              [Error [LStr ("API proxy error for action " ++ dquote ++ "nowhere"
                            ++ dquote ++ ":");
                      LErr "socket hang up"]] in
  part_000 demo_cfg (PostApi "nowhere") None demo_world = (r, w') /\
  exists status b, r = Val (Json status b).
Proof.
  cbn zeta. split; [reflexivity|].
  apply (api_never_throws demo_cfg "nowhere" None demo_world _
           (mkWorld demo_host 1%nat [api_request demo_cfg "nowhere" None]
              [Error [LStr ("API proxy error for action " ++ dquote ++ "nowhere"
                            ++ dquote ++ ":");
                      LErr "socket hang up"]])).
  right. reflexivity.
Defined.

(** X13: the 200 of [/api/echo] comes from the upstream. *)
Lemma api_200_is_an_upstream_success_witness :
  exists resp e' bytes result,
    net_fetch (api_request demo_cfg "echo" None) (ext demo_world) = (Val resp, e') /\
    resp_ok resp = true /\
    resp_body resp = Val bytes /\
    JSON_parse (Buffer_toString bytes) = Some result /\
    only_photos_differ result
      (JObj [("success", JBool true); ("data", JObj [("foo", JStr "bar")])]).
Proof.
  apply (api_200_is_an_upstream_success demo_cfg "echo" None demo_world
           (snd (part_000 demo_cfg (PostApi "echo") None demo_world))).
  right. reflexivity.
Defined.

(** X14: a payload full of photos, and one request. *)
Lemma app_js_api_makes_one_request_witness :
  sent (snd (app_js demo_cfg (PostApi "photo") None demo_world))
    = [api_request demo_cfg "photo" None].
Proof.
  apply (app_js_api_makes_one_request demo_cfg "photo" None demo_world
           (snd (app_js demo_cfg (PostApi "photo") None demo_world))
           (fst (app_js demo_cfg (PostApi "photo") None demo_world))).
  - discriminate.
  - reflexivity.
Defined.

(** X15: the same payload in the other variant, and two requests. *)
Lemma part_000_api_requests_witness :
  sent (snd (part_000 demo_cfg (PostApi "photo") None demo_world))
    = [api_request demo_cfg "photo" None; image_request "http://img.test/missing"].
Proof.
  apply (part_000_api_requests demo_cfg "photo" None demo_world
           (mkResponse 200 None (Val (list_byte_of_string "photo result")))
           1%nat (list_byte_of_string "photo result")
           (JObj [("success", JBool true);
                  ("data", JArr [demo_student "http://img.test/missing"])])
           (JArr [demo_student "http://img.test/missing"])
           (Some (JBool true)));
    try reflexivity; discriminate.
Defined.

(** X16: an upload without file name. *)
Lemma upload_requires_fields_witness :
  app_js demo_cfg_github PostUploadImage (Some (JObj [("image", JStr "aGk=")])) demo_world =
    (Val (Json 400 (envelope_error "Image data and file name are required.")),
     demo_world).
Proof.
  apply (upload_requires_fields demo_cfg_github
           (Some (JObj [("image", JStr "aGk=")])) demo_world
           (Some (JStr "aGk=")) None eq_refl eq_refl eq_refl eq_refl eq_refl
           (or_intror eq_refl)).
Defined.

(** X17: a number for a file name. *)
Lemma upload_name_must_be_a_string_witness :
  exists message,
    app_js demo_cfg_github PostUploadImage
      (Some (JObj [("image", JStr "aGk="); ("fileName", JNum 5%float)])) demo_world
    = (Throw message, demo_world).
Proof.
  apply (upload_name_must_be_a_string demo_cfg_github
           (Some (JObj [("image", JStr "aGk="); ("fileName", JNum 5%float)]))
           demo_world (Some (JStr "aGk=")) (JNum 5%float)
           eq_refl eq_refl eq_refl eq_refl eq_refl eq_refl eq_refl).
  intros s. discriminate.
Defined.

(** X18: an upload that goes through. *)
Lemma upload_success_returns_url_witness :
  fst (app_js demo_cfg_github PostUploadImage (Some demo_upload) office_world) =
    Val (Json 200
           (JObj [("success", JBool true);
                  ("url", JStr "https://raw.githubusercontent.com/edu/assets/main/images/x.png")])).
Proof.
  rewrite (@upload_success_returns_url office_host demo_cfg_github
             (Some demo_upload) office_world (Some (JStr "aGk=")) "my photo(1).png"
             (mkResponse 201 (Some "application/json")
                (Val (list_byte_of_string "created")))
             1%nat (list_byte_of_string "created")
             (JObj [("content",
                     JObj [("download_url",
                            JStr "https://raw.githubusercontent.com/edu/assets/main/images/x.png")])])
             (JStr "https://raw.githubusercontent.com/edu/assets/main/images/x.png")
             eq_refl eq_refl eq_refl eq_refl eq_refl eq_refl
             ltac:(discriminate)
             eq_refl eq_refl eq_refl eq_refl eq_refl eq_refl).
  reflexivity.
Defined.

(** X19: an upload the asset host refuses, with a message that is a string
    and with one that does not convert to a string. *)
Lemma upload_failure_is_reported_witness :
  fst (app_js office_cfg_locked PostUploadImage (Some demo_upload) office_world) =
    Val (Json 403
           (envelope_error
              "GitHub API Error: Resource not accessible by personal access token")) /\
  fst (app_js office_cfg_odd PostUploadImage (Some demo_upload) office_world) =
    Val (Json 500
           (envelope_details "Server error during image upload."
              "Cannot convert object to primitive value")).
Proof.
  split.
  - rewrite (proj1 (@upload_failure_is_reported office_host office_cfg_locked
               (Some demo_upload) office_world (Some (JStr "aGk=")) "my photo(1).png"
               (mkResponse 403 (Some "application/json")
                  (Val (list_byte_of_string "forbidden")))
               1%nat (list_byte_of_string "forbidden")
               (JObj [("message", JStr "Resource not accessible by personal access token")])
               (Some (JStr "Resource not accessible by personal access token"))
               eq_refl eq_refl eq_refl eq_refl eq_refl eq_refl
               ltac:(discriminate)
               eq_refl eq_refl eq_refl (or_introl eq_refl) eq_refl)).
    reflexivity.
  - rewrite (proj1 (@upload_failure_is_reported office_host office_cfg_odd
               (Some demo_upload) office_world (Some (JStr "aGk=")) "my photo(1).png"
               (mkResponse 422 (Some "application/json")
                  (Val (list_byte_of_string "odd")))
               1%nat (list_byte_of_string "odd")
               (JObj [("message", JObj [("toString", JNum 1%float)])])
               (Some (JObj [("toString", JNum 1%float)]))
               eq_refl eq_refl eq_refl eq_refl eq_refl eq_refl
               ltac:(discriminate)
               eq_refl eq_refl eq_refl (or_introl eq_refl) eq_refl)).
    reflexivity.
Defined.

(** X20: [tools.json] is not there. *)
Lemma static_failure_status_witness :
  fst (app_js demo_cfg GetTools None office_world)
    = Val (Text 404 "Error loading tools configuration.") /\
  sent (snd (app_js demo_cfg GetTools None office_world)) = [].
Proof.
  apply (proj1 (proj2 (@static_failure_status office_host demo_cfg office_world
                         "tools.json" "ENOENT: no such file or directory" (Some 404)
                         eq_refl))).
  reflexivity.
Defined.

(** X21: the photo that is gone is kept, as the alternative allows. *)
Lemma photo_is_kept_or_inlined_witness :
  exists data' w',
    processImageUrlsToBase64 (demo_student "http://img.test/missing") demo_world
      = (Val data', w') /\
    (lookup_path [Key "PhotoURL"] data' = Some (JStr "http://img.test/missing") \/
     exists mime bytes,
       mime <> "" /\
       lookup_path [Key "PhotoURL"] data' =
         Some (JStr ("data:" ++ mime ++ ";base64," ++ base64 bytes))).
Proof.
  apply (photo_is_kept_or_inlined [] (demo_student "http://img.test/missing")
           demo_world "http://img.test/missing"); reflexivity.
Defined.

(** X22: an account the upstream does not answer for. *)
Lemma login_never_throws_witness :
  let r := Val (Json 500 (envelope_details "Proxy server error during login."
                            "socket hang up")) in
  let w' := @mkWorld office_host 1%nat
              [@gas_request office_host demo_cfg
                 (JObj [("action", JStr "login"); ("mobile", JStr "9000000003");
                        ("password", JStr "secret")])]
              [Error [LStr "Login proxy error:"; LErr "socket hang up"]] in
  app_js demo_cfg PostLogin (Some (office_login "9000000003")) office_world = (r, w') /\
  exists status b, r = Val (Json status b).
Proof.
  cbn zeta. split; [reflexivity|].
  apply (@login_never_throws office_host demo_cfg
           (Some (office_login "9000000003")) office_world
           (Some (JStr "9000000003")) (Some (JStr "secret")) _
           (@mkWorld office_host 1%nat
              [@gas_request office_host demo_cfg
                 (JObj [("action", JStr "login"); ("mobile", JStr "9000000003");
                        ("password", JStr "secret")])]
              [Error [LStr "Login proxy error:"; LErr "socket hang up"]])
           eq_refl eq_refl).
  left. reflexivity.
Defined.

(** X23: an upload whose refusal carries a message that does not convert to
    a string. *)
Lemma upload_never_throws_witness :
  let r := Val (Json 500 (envelope_details "Server error during image upload."
                            "Cannot convert object to primitive value")) in
  let w' := @mkWorld office_host 1%nat
              [@upload_request office_host office_cfg_odd
                 "1700000000000-my_photo_1_.png" (Some (JStr "aGk="))]
              [Error [LStr "GitHub API Error:";
                      LJson (JObj [("toString", JNum 1%float)])];
               Error [LStr "Proxy error during image upload:";
                      LErr "Cannot convert object to primitive value"]] in
  app_js office_cfg_odd PostUploadImage (Some demo_upload) office_world = (r, w') /\
  exists status b, r = Val (Json status b).
Proof.
  cbn zeta. split; [reflexivity|].
  apply (@upload_never_throws office_host office_cfg_odd (Some demo_upload)
           office_world (Some (JStr "aGk=")) (Some (JStr "my photo(1).png")) _
           (@mkWorld office_host 1%nat
              [@upload_request office_host office_cfg_odd
                 "1700000000000-my_photo_1_.png" (Some (JStr "aGk="))]
              [Error [LStr "GitHub API Error:";
                      LJson (JObj [("toString", JNum 1%float)])];
               Error [LStr "Proxy error during image upload:";
                      LErr "Cannot convert object to primitive value"]])
           eq_refl eq_refl).
  - right. exists "my photo(1).png". reflexivity.
  - reflexivity.
Defined.
